(** * cta-ingest: the resumable pipeline engine

    A shallow embedding of the two variants of the program that live in
    the repository,

      - [src/cta-ingest.py]          (module [CtaIngest] below), and
      - [src/cta_ingest/__main__.py] (module [Main] below),

    followed by the properties of the stage engine, the store wrapper, the
    transform pipeline and the progress meter.

    Stage procedures talk to the outside world only through the methods
    of the store wrapper [s3w], through [pathlib]/[os] calls, through
    [subprocess] and through [logging].  They are embedded as programs
    over exactly that command alphabet ([cmd]).  General properties of a
    stage are proved for an arbitrary environment answering the commands;
    runs on concrete inputs use the environment of module [World].

    Conventions.  A manifest is a [gmap] from logical-id to its entry and
    [set(d)] is [dom d].  Python iterates over a [set] in an unspecified
    order and over [d.items()] in the order of the JSON document; the
    embedding iterates in the order of [elements] and of [map_to_list],
    and no statement below depends on that order.  A dictionary mutated
    in place is threaded through the loops as their carried state. *)

From Stdlib Require Import ZArith QArith Ascii.
From stdpp Require Import base strings gmap list sorting pretty.

Local Open Scope Z_scope.
Local Open Scope string_scope.
Local Open Scope list_scope.

(** ** Python values and exceptions *)

(** Positional arguments of a plain [Exception(...)]. *)
Inductive pyarg :=
| ArgStr (s : string)
| ArgInt (z : Z)
| ArgStrs (l : list string).

Inductive exn :=
| NoSuchKeyError                      (* class NoSuchKeyError(Exception) *)
| PyException (args : list pyarg)     (* raise Exception(args...) *)
| ZeroDivisionError
| KeyError (k : string)
| ClientError (code : string)         (* botocore.exceptions.ClientError *)
| OSError (what : string)             (* FileNotFoundError and the like *)
| JSONDecodeError.

Inductive result (A : Type) :=
| Ok (a : A)
| Raise (e : exn).
Arguments Ok {A} a.
Arguments Raise {A} e.

(** ** Manifests *)

(** An entry of an inventory ([origin.json], [target.json]).  The scan
    timestamp ['ts'] that [src/cta-ingest.py] also stores is read by no
    stage and is left out. *)
Record file_desc := FileDesc {
  fd_path : string;
  fd_size : Z;
  fd_mtime : Q;
  fd_atime : Q
}.

(** A ledger maps a logical-id to its ordered list of parts; an inventory
    maps a logical-id to a file descriptor. *)
Abbreviation ledger := (gmap string (list string)).
Abbreviation inventory := (gmap string file_desc).

(** ** The command alphabet *)

(** Exit statuses of the two processes of a pipeline.  [p1_status] is
    what the first process exits with; the program never reads it. *)
Record pipe_status := PipeStatus {
  p1_status : Z;
  p2_returncode : Z
}.

Inductive cmd :=
(* s3w.get_from_json(key[, default=...]), decoded as a ledger / an inventory *)
| GetLedger (key : string) (default : option ledger)
| GetInventory (key : string) (default : option inventory)
(* s3w.put_as_json(state, key) *)
| PutLedger (state : ledger) (key : string)
| DownloadFile (key path : string)
| UploadFile (path key : string)
| DeleteObject (key : string)
| ListKeys (prefix : string)
(* pathlib / os *)
| Iterdir (path : string)
| Unlink (path : string)
| Rmdir (path : string)
| Mkdir (path : string) (parents exist_ok : bool)
| Exists (path : string)
| Utime (path : string) (atime mtime : Q)
| Chmod (path : string) (mode : Z)
| Rename (src dst : string)
(* Popen(cmd1, stdout=PIPE) | Popen(cmd2, stdin=p1.stdout); p2.communicate() *)
| Pipe (cmd1 cmd2 : list string).

Definition resp (c : cmd) : Type :=
  match c with
  | GetLedger _ _ => ledger
  | GetInventory _ _ => inventory
  | ListKeys _ => list string
  | Iterdir _ => list string
  | Exists _ => bool
  | Pipe _ _ => pipe_status
  | _ => unit
  end.

(** Responses, reified so that they can be listed in a trace. *)
Inductive answer :=
| ALedger (l : ledger)
| AInventory (i : inventory)
| AStrs (l : list string)
| ABool (b : bool)
| AStatus (s : pipe_status)
| AUnit.

Definition reify (c : cmd) : resp c → answer :=
  match c with
  | GetLedger _ _ => ALedger
  | GetInventory _ _ => AInventory
  | ListKeys _ => AStrs
  | Iterdir _ => AStrs
  | Exists _ => ABool
  | Pipe _ _ => AStatus
  | _ => λ _, AUnit
  end.

(** ** Logging *)

Inductive log_level := INFO | WARN | ERROR.

Inductive log_arg :=
| LStr (s : string)
| LInt (n : Z)
| LSet (s : gset string).

(** A log record: the level, the literal text of the f-string with its
    holes written [{}], and the values that fill the holes. *)
Record log_record := LogRecord {
  log_lvl : log_level;
  log_fmt : string;
  log_args : list log_arg
}.

(** ** Programs *)

Inductive prog (A : Type) :=
| Ret (a : A)
| Throw (e : exn)
| Say (l : log_record) (k : prog A)
| Do (c : cmd) (k : resp c → prog A).
Arguments Ret {A} a.
Arguments Throw {A} e.
Arguments Say {A} l k.
Arguments Do {A} c k.

Fixpoint bind {A B} (p : prog A) (f : A → prog B) : prog B :=
  match p with
  | Ret a => f a
  | Throw e => Throw e
  | Say l k => Say l (bind k f)
  | Do c k => Do c (λ x, bind (k x) f)
  end.

#[export] Instance prog_ret : MRet prog := @Ret.
#[export] Instance prog_bind : MBind prog := λ A B f p, bind p f.

Definition call (c : cmd) : prog (resp c) := Do c Ret.
Definition log (lvl : log_level) (fmt : string) (args : list log_arg) : prog unit :=
  Say (LogRecord lvl fmt args) (Ret tt).

(** [for x in l: s = body x s] with the loop-carried state [s]. *)
Fixpoint for_each {X S} (l : list X) (body : X → S → prog S) (s : S) : prog S :=
  match l with
  | [] => Ret s
  | x :: l' => s' ← body x s; for_each l' body s'
  end.

(** ** Running a program in an environment *)

Inductive outcome :=
| Returned (a : answer)
| Raised (e : exn).

Inductive event :=
| Called (c : cmd) (o : outcome)
| Logged (l : log_record).

(** An environment answers each command, or raises, and moves on. *)
Definition handler (W : Type) := W → ∀ c : cmd, result (resp c) * W.

Fixpoint run {W A} (h : handler W) (p : prog A) (w : W)
  : W * list event * result A :=
  match p with
  | Ret a => (w, [], Ok a)
  | Throw e => (w, [], Raise e)
  | Say l k =>
      let '(w', t, r) := run h k w in (w', Logged l :: t, r)
  | Do c k =>
      match h w c with
      | (Ok x, w1) =>
          let '(w', t, r) := run h (k x) w1 in
          (w', Called c (Returned (reify c x)) :: t, r)
      | (Raise e, w1) => (w1, [Called c (Raised e)], Raise e)
      end
  end.

Definition trace_of {W A} (x : W * list event * result A) : list event := x.1.2.
Definition result_of {W A} (x : W * list event * result A) : result A := x.2.
Definition world_of {W A} (x : W * list event * result A) : W := x.1.1.

(** ** Helpers shared by both variants *)

(** Paths are [pathlib] paths, kept as their strings.  [pathlib] parses a
    string into a root (["/"], or ["//"] for exactly two leading
    slashes) and the components between slashes, dropping the empty
    ones and the [.] ones; the string of a path is the root followed by
    the components joined by slashes, or ["."] when there is neither. *)
Fixpoint split_on (sep : ascii) (s cur : string) : list string :=
  match s with
  | EmptyString => [cur]
  | String c s' =>
      if Ascii.eqb c sep then cur :: split_on sep s' ""
      else split_on sep s' (cur +:+ String c "")
  end.

Definition path_parts (s : string) : list string :=
  filter (λ c, c ≠ "" ∧ c ≠ ".") (split_on "/" s "").

Definition path_root (s : string) : string :=
  if String.prefix "//" s && negb (String.prefix "///" s) then "//"
  else if String.prefix "/" s then "/"
  else "".

Definition path_str (root : string) (parts : list string) : string :=
  if decide (root = "" ∧ parts = []) then "." else root +:+ String.concat "/" parts.

(** [str(Path(a, b))] and [str(a / b)]: a [b] with a root replaces [a]. *)
Definition path_join (a b : string) : string :=
  if String.prefix "/" b then path_str (path_root b) (path_parts b)
  else path_str (path_root a) (path_parts a ++ path_parts b).

(** [Path(p).name]: the last component of [p], [''] when it has none. *)
Definition path_name (p : string) : string := default "" (last (path_parts p)).

(** [d[k]] *)
Definition getitem {V} (d : gmap string V) (k : string) : prog V :=
  match d !! k with
  | Some v => Ret v
  | None => Throw (KeyError k)
  end.

(** [d.pop(k)], keeping the dictionary that is left. *)
Definition dict_pop {V} (k : string) (d : gmap string V) : prog (gmap string V) :=
  match d !! k with
  | Some _ => Ret (delete k d)
  | None => Throw (KeyError k)
  end.

(** [d.setdefault(k, [])] *)
Definition setdefault (k : string) (d : ledger) : ledger :=
  match d !! k with
  | Some _ => d
  | None => <[k := []]> d
  end.

(** [d[k].append(x)] *)
Definition dict_append (k x : string) (d : ledger) : prog ledger :=
  match d !! k with
  | Some l => Ret (<[k := l ++ [x]]> d)
  | None => Throw (KeyError k)
  end.

(** [sorted(l)] on a list of [str]: ascending in the code-point order. *)
Definition str_le (a b : string) : Prop := String.leb a b = true.
#[export] Instance str_le_dec a b : Decision (str_le a b).
Proof. unfold str_le. apply _. Defined.
Definition sorted (l : list string) : list string := merge_sort str_le l.

(** [x in l] for a list of [str]. *)
Definition str_in (x : string) (l : list string) : bool := bool_decide (x ∈ l).

(** [_rmdirr], the same in both files. *)
Definition _rmdirr (path : string) : prog unit :=
  fps ← call (Iterdir path);
  for_each fps (λ fp _, call (Unlink fp)) tt;;
  call (Rmdir path).

(** ** The store wrapper: [S3_Wrapper.get_from_json]

    The method is the same in both files.  [obj.get()['Body'].read()]
    either yields the body, raises [ClientError] with an error code, or
    raises something else (which the method does not catch).
    [json.loads] is a library function and is taken as a parameter. *)
Module S3_Wrapper.

Inductive get_reply (B : Type) :=
| GotBody (body : B)
| GotClientError (code : string)
| GotOther (e : exn).
Arguments GotBody {B} body.
Arguments GotClientError {B} code.
Arguments GotOther {B} e.

Section get_from_json.
Context {B J : Type} (json_loads : B → result J).

(** [kwargs_default] is [Some d] when the caller passed [default=d]. *)
Definition get_from_json (reply : get_reply B) (kwargs_default : option J)
  : result J :=
  match reply with
  | GotBody body => json_loads body
  | GotClientError code =>
      if decide (code = "NoSuchKey") then
        match kwargs_default with
        | Some d => Ok d
        | None => Raise NoSuchKeyError
        end
      else Raise NoSuchKeyError
  | GotOther e => Raise e
  end.
End get_from_json.

End S3_Wrapper.

(** ** Variant 1: [src/cta-ingest.py] *)
Module CtaIngest.

Definition _run_pipeline (cmd1 cmd2 : list string) : prog unit :=
  p ← call (Pipe cmd1 cmd2);
  if decide (p2_returncode p ≠ 0)
  then Throw (PyException [ArgStr "NonZeroReturnCode"; ArgInt (p2_returncode p);
                           ArgStrs cmd1; ArgStrs cmd2])
  else Ret tt.

Definition my_delivered {A B} (my_state : gmap string A) (target : gmap string B)
  : gset string :=
  dom my_state ∩ dom target.

(** [my_unprocessed] of [disassemble] and [upload]. *)
Definition my_unprocessed {A B C}
    (src : gmap string A) (my_state : gmap string B) (target : gmap string C)
  : gset string :=
  dom src ∖ dom my_state ∖ dom target ∖ my_delivered my_state target.

(** *** disassemble *)

(** Body of [for fname in my_delivered]. *)
Definition disassemble_cleanup (work_dir my_state_key fname : string)
    (my_state : ledger) : prog ledger :=
  log INFO "Cleaning up {}" [LStr (path_join work_dir fname)];;
  _rmdirr (path_join work_dir fname);;
  my_state ← dict_pop fname my_state;
  call (PutLedger my_state my_state_key);;
  Ret my_state.

(** Body of [for fname in my_unprocessed]. *)
Definition disassemble_one (work_dir : string) (part_size : Z)
    (origin : inventory) (my_state_key fname : string) (my_state : ledger)
  : prog ledger :=
  log INFO "Compressing and splitting {}" [LStr fname];;
  let chunk_dir := path_join work_dir fname in
  ex ← call (Exists chunk_dir);
  (if ex : bool then _rmdirr chunk_dir else Ret tt);;
  call (Mkdir chunk_dir true false);;
  d ← getitem origin fname;
  let zstd_cmd := ["zstd"; "--threads=0"; "--stdout"; fd_path d] in
  let split_cmd := ["split"; "-b"; pretty part_size; "-"; chunk_dir +:+ "/"] in
  _run_pipeline (["nice"; "-n"; "19"] ++ zstd_cmd) split_cmd;;
  parts ← call (Iterdir chunk_dir);
  let my_state := <[fname := parts]> my_state in
  call (PutLedger my_state my_state_key);;
  Ret my_state.

Definition disassemble (work_dir : string) (part_size : Z) (dry_run : bool)
  : prog unit :=
  let my_state_key := "disassemble.json" in
  my_state ← call (GetLedger my_state_key (Some ∅));
  origin ← call (GetInventory "origin.json" (Some ∅));
  target ← call (GetInventory "target.json" None);
  let my_delivered := my_delivered my_state target in
  let my_unprocessed := my_unprocessed origin my_state target in
  if dry_run then
    log INFO "Dry run: would have cleaned-up {}" [LSet my_delivered];;
    log INFO "Dry run: would have processed {}" [LSet my_unprocessed]
  else
    my_state ← for_each (elements my_delivered)
                 (disassemble_cleanup work_dir my_state_key) my_state;
    for_each (elements my_unprocessed)
      (disassemble_one work_dir part_size origin my_state_key) my_state;;
    Ret tt.

(** *** download *)

(** Body of [for fname in my_delivered]. *)
Definition download_cleanup (work_dir my_state_key fname : string)
    (my_state : ledger) : prog ledger :=
  log INFO "Cleaning up {}" [LStr (path_join work_dir fname)];;
  _rmdirr (path_join work_dir fname);;
  my_state ← dict_pop fname my_state;
  call (PutLedger my_state my_state_key);;
  Ret my_state.

(** Body of [for part_key in part_keys]. *)
Definition download_part (origin_path chunks_dir part_key : string)
    (my_state : ledger) : prog ledger :=
  log INFO "Downloading {} {}" [LStr origin_path; LStr part_key];;
  let dst_path := path_join chunks_dir (path_name part_key) in
  call (DownloadFile part_key dst_path);;
  dict_append origin_path dst_path my_state.

(** Body of [for origin_path in my_unprocessed]; the ledger is written
    after the loop over the parts. *)
Definition download_one (work_dir : string) (src_state : ledger)
    (my_state_key origin_path : string) (my_state : ledger) : prog ledger :=
  part_keys ← getitem src_state origin_path;
  let my_state := setdefault origin_path my_state in
  let chunks_dir := path_join work_dir origin_path in
  call (Mkdir chunks_dir true true);;
  my_state ← for_each part_keys (download_part origin_path chunks_dir) my_state;
  call (PutLedger my_state my_state_key);;
  Ret my_state.

(** The set [download] iterates over, computed from the ledger as the
    clean-up sweep left it. *)
Definition download_unprocessed (src_state my_state : ledger) (target : inventory)
  : gset string :=
  dom src_state ∖ dom my_state ∖ dom target.

Definition download (work_dir : string) : prog unit :=
  let my_state_key := "download.json" in
  my_state ← call (GetLedger my_state_key (Some ∅));
  src_state ← call (GetLedger "upload.json" (Some ∅));
  target ← call (GetInventory "target.json" None);
  let my_delivered := my_delivered my_state target in
  my_state ← for_each (elements my_delivered)
               (download_cleanup work_dir my_state_key) my_state;
  let my_unprocessed := download_unprocessed src_state my_state target in
  for_each (elements my_unprocessed)
    (download_one work_dir src_state my_state_key) my_state;;
  Ret tt.

(** *** reassemble *)

(** [['cat'] + sorted(part_paths)] *)
Definition cat_cmd (part_paths : list string) : list string :=
  "cat" :: sorted part_paths.

Definition zstd_cmd (output_path : string) : list string :=
  ["zstd"; "--quiet"; "--force"; "--decompress"; "-o"; output_path].

(** Body of [for origin_path, part_paths in src_state.items()]. *)
Definition reassemble_one (work_dir dst_dir : string) (origin_state : inventory)
    (item : string * list string) (_ : unit) : prog unit :=
  let '(origin_path, part_paths) := item in
  log INFO "Processing {} from {} parts"
    [LStr origin_path; LInt (Z.of_nat (length part_paths))];;
  let output_path := path_join work_dir (path_name origin_path) in
  _run_pipeline (cat_cmd part_paths) (zstd_cmd output_path);;
  origin_file ← getitem origin_state origin_path;
  call (Utime output_path (fd_atime origin_file) (fd_mtime origin_file));;
  call (Chmod output_path 292 (* 0o444 *));;
  let target_path := path_join dst_dir (path_name output_path) in
  ex ← call (Exists target_path);
  if ex : bool then
    log ERROR "{} exists" [LStr target_path]
  else
    log INFO "{} has been reassembled"
      [LStr (path_join dst_dir (path_name output_path))];;
    call (Rename output_path (path_join dst_dir (path_name output_path))).

Definition reassemble (work_dir dst_dir : string) : prog unit :=
  call (Mkdir work_dir true true);;
  call (Mkdir dst_dir true true);;
  src_state ← call (GetLedger "download.json" None);
  origin_state ← call (GetInventory "origin.json" None);
  for_each (map_to_list src_state)
    (reassemble_one work_dir dst_dir origin_state) tt.

(** *** upload *)

(** Body of [for fname in my_delivered]. *)
Definition upload_cleanup (my_state_key fname : string) (my_state : ledger)
  : prog ledger :=
  keys ← getitem my_state fname;
  for_each keys
    (λ key _, log INFO "Cleaning up {}" [LStr key];; call (DeleteObject key)) tt;;
  my_state ← dict_pop fname my_state;
  call (PutLedger my_state my_state_key);;
  Ret my_state.

(** Body of [for part_path in src_state[fname]]; [continue] hands the
    ledger on unchanged. *)
Definition upload_part (fname : string) (uploaded_parts : list string)
    (part_path : string) (my_state : ledger) : prog ledger :=
  let key := "parts" +:+ part_path in
  if str_in key uploaded_parts then
    log WARN "Key {} already uploaded" [LStr key];;
    Ret my_state
  else
    log INFO "Uploading {} as {}" [LStr part_path; LStr key];;
    call (UploadFile part_path key);;
    dict_append fname key my_state.

(** Body of [for fname in my_unprocessed]; the ledger is written after
    the loop over the parts. *)
Definition upload_one (src_state : ledger) (uploaded_parts : list string)
    (my_state_key fname : string) (my_state : ledger) : prog ledger :=
  let my_state := setdefault fname my_state in
  part_paths ← getitem src_state fname;
  my_state ← for_each part_paths (upload_part fname uploaded_parts) my_state;
  call (PutLedger my_state my_state_key);;
  Ret my_state.

Definition upload (dry_run : bool) : prog unit :=
  let my_state_key := "upload.json" in
  my_state ← call (GetLedger my_state_key (Some ∅));
  src_state ← call (GetLedger "disassemble.json" (Some ∅));
  target ← call (GetInventory "target.json" None);
  let my_delivered := my_delivered my_state target in
  let my_unprocessed := my_unprocessed src_state my_state target in
  if dry_run then
    log INFO "Dry run: would have cleaned-up {}" [LSet my_delivered];;
    log INFO "Dry run: would have processed {}" [LSet my_unprocessed]
  else
    my_state ← for_each (elements my_delivered)
                 (upload_cleanup my_state_key) my_state;
    uploaded_parts ← call (ListKeys "parts");
    for_each (elements my_unprocessed)
      (upload_one src_state uploaded_parts my_state_key) my_state;;
    Ret tt.

End CtaIngest.

(** ** Variant 2: [src/cta_ingest/__main__.py]

    This file has no dry-run flag and no logging calls in its stages. *)
Module Main.

Definition _run_pipeline (cmd1 cmd2 : list string) : prog unit :=
  p ← call (Pipe cmd1 cmd2);
  if decide (p2_returncode p ≠ 0)
  then Throw (PyException [ArgStr "NonZeroReturnCode"])
  else Ret tt.

Definition my_delivered {A B} (my_state : gmap string A) (target : gmap string B)
  : gset string :=
  dom my_state ∩ dom target.

(** *** disassemble *)

(** Body of [for fname in my_delivered]. *)
Definition disassemble_cleanup (work_dir my_state_key fname : string)
    (my_state : ledger) : prog ledger :=
  _rmdirr (path_join work_dir fname);;
  my_state ← dict_pop fname my_state;
  call (PutLedger my_state my_state_key);;
  Ret my_state.

(** Body of [for fname in my_unprocessed]; the part size is the literal
    [10*10**6]. *)
Definition disassemble_one (work_dir : string)
    (origin : inventory) (my_state_key fname : string) (my_state : ledger)
  : prog ledger :=
  let chunk_dir := path_join work_dir fname in
  ex ← call (Exists chunk_dir);
  (if ex : bool then _rmdirr chunk_dir else Ret tt);;
  call (Mkdir chunk_dir true false);;
  d ← getitem origin fname;
  let zstd_cmd := ["nice"; "-n"; "19"; "zstd"; "--stdout"; fd_path d] in
  let split_cmd := ["split"; "-b"; pretty (10 * 10 ^ 6); "-"; chunk_dir +:+ "/"] in
  _run_pipeline zstd_cmd split_cmd;;
  parts ← call (Iterdir chunk_dir);
  let my_state := <[fname := parts]> my_state in
  call (PutLedger my_state my_state_key);;
  Ret my_state.

(** The set [disassemble] iterates over, computed from the ledger as the
    clean-up sweep left it. *)
Definition disassemble_unprocessed (origin : inventory) (my_state : ledger)
    (target : inventory) : gset string :=
  dom origin ∖ dom my_state ∖ dom target.

Definition disassemble (work_dir : string) : prog unit :=
  let my_state_key := "disassemble.json" in
  my_state ← call (GetLedger my_state_key (Some ∅));
  origin ← call (GetInventory "origin.json" (Some ∅));
  target ← call (GetInventory "target.json" (Some ∅));
  let my_delivered := my_delivered my_state target in
  my_state ← for_each (elements my_delivered)
               (disassemble_cleanup work_dir my_state_key) my_state;
  let my_unprocessed := disassemble_unprocessed origin my_state target in
  for_each (elements my_unprocessed)
    (disassemble_one work_dir origin my_state_key) my_state;;
  Ret tt.

(** *** download *)

(** Body of [for fname in my_delivered]. *)
Definition download_cleanup (work_dir my_state_key fname : string)
    (my_state : ledger) : prog ledger :=
  _rmdirr (path_join work_dir fname);;
  my_state ← dict_pop fname my_state;
  call (PutLedger my_state my_state_key);;
  Ret my_state.

(** Body of [for part_key in part_keys]. *)
Definition download_part (origin_path chunks_dir part_key : string)
    (my_state : ledger) : prog ledger :=
  let dst_path := path_join chunks_dir (path_name part_key) in
  call (DownloadFile part_key dst_path);;
  dict_append origin_path dst_path my_state.

(** Body of [for origin_path in my_unprocessed]; the ledger is written
    after the loop over the parts. *)
Definition download_one (work_dir : string) (src_state : ledger)
    (my_state_key origin_path : string) (my_state : ledger) : prog ledger :=
  part_keys ← getitem src_state origin_path;
  let my_state := setdefault origin_path my_state in
  let chunks_dir := path_join work_dir origin_path in
  call (Mkdir chunks_dir true true);;
  my_state ← for_each part_keys (download_part origin_path chunks_dir) my_state;
  call (PutLedger my_state my_state_key);;
  Ret my_state.

Definition download_unprocessed (src_state my_state : ledger) (target : inventory)
  : gset string :=
  dom src_state ∖ dom my_state ∖ dom target.

Definition download (work_dir : string) : prog unit :=
  let my_state_key := "download.json" in
  my_state ← call (GetLedger my_state_key (Some ∅));
  src_state ← call (GetLedger "upload.json" (Some ∅));
  target ← call (GetInventory "target.json" (Some ∅));
  let my_delivered := my_delivered my_state target in
  my_state ← for_each (elements my_delivered)
               (download_cleanup work_dir my_state_key) my_state;
  let my_unprocessed := download_unprocessed src_state my_state target in
  for_each (elements my_unprocessed)
    (download_one work_dir src_state my_state_key) my_state;;
  Ret tt.

(** *** reassemble *)

(** [['cat'] + part_paths] *)
Definition cat_cmd (part_paths : list string) : list string :=
  "cat" :: part_paths.

Definition zstd_cmd (output_path : string) : list string :=
  ["zstd"; "--quiet"; "--force"; "--decompress"; "-o"; output_path].

(** Body of [for origin_path, part_paths in src_state.items()]. *)
Definition reassemble_one (work_dir dst_dir : string) (origin_state : inventory)
    (item : string * list string) (_ : unit) : prog unit :=
  let '(origin_path, part_paths) := item in
  let output_path := path_join work_dir (path_name origin_path) in
  _run_pipeline (cat_cmd part_paths) (zstd_cmd output_path);;
  origin_file ← getitem origin_state origin_path;
  call (Utime output_path (fd_atime origin_file) (fd_mtime origin_file));;
  call (Chmod output_path 292 (* 0o444 *));;
  let target_path := path_join dst_dir (path_name output_path) in
  ex ← call (Exists target_path);
  if ex : bool then
    Ret tt
  else
    call (Rename output_path (path_join dst_dir (path_name output_path))).

Definition reassemble (work_dir dst_dir : string) : prog unit :=
  call (Mkdir work_dir true true);;
  call (Mkdir dst_dir true true);;
  src_state ← call (GetLedger "download.json" None);
  origin_state ← call (GetInventory "origin.json" None);
  for_each (map_to_list src_state)
    (reassemble_one work_dir dst_dir origin_state) tt.

(** *** upload *)

(** Body of [for fname in my_delivered]. *)
Definition upload_cleanup (my_state_key fname : string) (my_state : ledger)
  : prog ledger :=
  keys ← getitem my_state fname;
  for_each keys (λ key _, call (DeleteObject key)) tt;;
  my_state ← dict_pop fname my_state;
  call (PutLedger my_state my_state_key);;
  Ret my_state.

(** Body of [for part_path in src_state[fname]]; [continue] hands the
    ledger on unchanged. *)
Definition upload_part (fname : string) (uploaded_parts : list string)
    (part_path : string) (my_state : ledger) : prog ledger :=
  let key := "parts" +:+ part_path in
  if str_in key uploaded_parts then
    Ret my_state
  else
    call (UploadFile part_path key);;
    dict_append fname key my_state.

(** Body of [for fname in my_unprocessed]; the ledger is written after
    the loop over the parts. *)
Definition upload_one (src_state : ledger) (uploaded_parts : list string)
    (my_state_key fname : string) (my_state : ledger) : prog ledger :=
  let my_state := setdefault fname my_state in
  part_paths ← getitem src_state fname;
  my_state ← for_each part_paths (upload_part fname uploaded_parts) my_state;
  call (PutLedger my_state my_state_key);;
  Ret my_state.

(** The set [upload] iterates over: the stage's own ledger is not
    subtracted. *)
Definition upload_unprocessed (src_state : ledger) (target : inventory)
  : gset string :=
  dom src_state ∖ dom target.

Definition upload : prog unit :=
  let my_state_key := "upload.json" in
  my_state ← call (GetLedger my_state_key (Some ∅));
  src_state ← call (GetLedger "disassemble.json" (Some ∅));
  target ← call (GetInventory "target.json" (Some ∅));
  let my_delivered := my_delivered my_state target in
  my_state ← for_each (elements my_delivered)
               (upload_cleanup my_state_key) my_state;
  uploaded_parts ← call (ListKeys "parts");
  let my_unprocessed := upload_unprocessed src_state target in
  for_each (elements my_unprocessed)
    (upload_one src_state uploaded_parts my_state_key) my_state;;
  Ret tt.

End Main.

(** ** The progress meter

    [time()] is passed in as [now]; times and rates are rationals, and a
    true division raises [ZeroDivisionError] on a zero divisor, as
    Python's does.  The four fields that [__init__] sets to [None] and the
    first callback sets together are kept in one optional record.  The
    report lines are kept as the numbers that are formatted into them. *)

#[export] Instance result_ret : MRet result := @Ok.
#[export] Instance result_bind : MBind result := λ A B f r,
  match r with
  | Ok a => f a
  | Raise e => Raise e
  end.

(** [a / b] *)
Definition truediv (a b : Q) : result Q :=
  if Qeq_bool b 0 then Raise ZeroDivisionError else Ok (a / b)%Q.

Record started := Started {
  _first_time : Q;
  _first_count : Z;
  _last_update_time : Q;
  _last_update_count : Z
}.

Record ProgressMeter := Meter {
  _label : string;
  _size : Z;
  _count : Z;
  _update_interval : Q;
  _started : option started
}.

Inductive report :=
| Summary (label : string) (size : Z) (t_observed : Q)
| Progress (label : string) (t_observed : Q) (count size : Z)
    (percent update_rate average_rate : Q) (eta : list Q).

(** [ProgressMeter(label, size, update_interval)] *)
Definition ProgressMeter_init (label : string) (size : Z) (update_interval : Q)
  : ProgressMeter :=
  Meter label size 0 update_interval None.

Definition inQ (z : Z) : Q := inject_Z z.

Module CtaIngestMeter.

(** [ProgressMeter.__call__] of [src/cta-ingest.py] *)
Definition __call__ (self : ProgressMeter) (now : Q) (num_bytes : Z)
  : ProgressMeter * result (option report) :=
  let st :=
    match _started self with
    | None =>
        (* trick to display initial stats earlier than self._update_interval *)
        Started now num_bytes (now - _update_interval self + 10)%Q num_bytes
    | Some st => st
    end in
  let count := _count self + num_bytes in
  let self := Meter (_label self) (_size self) count (_update_interval self) (Some st) in
  let t_observed := (now - _first_time st)%Q in
  let t_since_update := (now - _last_update_time st)%Q in
  if decide (count = _size self) then
    (self, Ok (Some (Summary (_label self) (_size self) t_observed)))
  else if Qle_bool (_update_interval self) t_since_update then
    let r :=
      q ← truediv (inQ count) (inQ (_size self));
      let percent := (q * 100)%Q in
      let update_delta := count - _last_update_count st in
      update_rate ← truediv (inQ update_delta) t_since_update;
      average_rate ← truediv (inQ count) t_observed;
      t_remaining_cur ← truediv (inQ (_size self - count)) update_rate;
      Ok (Progress (_label self) t_observed count (_size self)
            percent update_rate average_rate [t_remaining_cur]) in
    match r with
    | Ok line =>
        (Meter (_label self) (_size self) count (_update_interval self)
           (Some (Started (_first_time st) (_first_count st) now count)),
         Ok (Some line))
    | Raise e => (self, Raise e)
    end
  else (self, Ok None).

End CtaIngestMeter.

Module MainMeter.

(** [ProgressMeter.__call__] of [src/cta_ingest/__main__.py] *)
Definition __call__ (self : ProgressMeter) (now : Q) (num_bytes : Z)
  : ProgressMeter * result (option report) :=
  let st :=
    match _started self with
    | None => Started now num_bytes now num_bytes
    | Some st => st
    end in
  let count := _count self + num_bytes in
  let self := Meter (_label self) (_size self) count (_update_interval self) (Some st) in
  let t_observed := (now - _first_time st)%Q in
  let t_since_update := (now - _last_update_time st)%Q in
  if decide (count = _size self) then
    (self, Ok (Some (Summary (_label self) (_size self) t_observed)))
  else if Qle_bool (_update_interval self) t_since_update then
    let r :=
      q ← truediv (inQ count) (inQ (_size self));
      let percent := (q * 100)%Q in
      let update_delta := count - _last_update_count st in
      update_rate ← truediv (inQ update_delta) t_since_update;
      average_rate ← truediv (inQ count) t_observed;
      t_remaining_avg ← truediv (inQ (_size self - count)) average_rate;
      t_remaining_cur ← truediv (inQ (_size self - count)) update_rate;
      Ok (Progress (_label self) t_observed count (_size self)
            percent update_rate average_rate [t_remaining_cur; t_remaining_avg]) in
    match r with
    | Ok line =>
        (Meter (_label self) (_size self) count (_update_interval self)
           (Some (Started (_first_time st) (_first_count st) now count)),
         Ok (Some line))
    | Raise e => (self, Raise e)
    end
  else (self, Ok None).

End MainMeter.

(** A transfer drives the meter with a sequence of callbacks, each at its
    own time; the first callback that raises ends the sequence. *)
Fixpoint feed (callback : ProgressMeter → Q → Z → ProgressMeter * result (option report))
    (self : ProgressMeter) (calls : list (Q * Z))
  : ProgressMeter * result (list report) :=
  match calls with
  | [] => (self, Ok [])
  | (now, num_bytes) :: calls' =>
      match callback self now num_bytes with
      | (self', Ok line) =>
          let '(self'', r) := feed callback self' calls' in
          (self'', lines ← r; Ok (option_list line ++ lines))
      | (self', Raise e) => (self', Raise e)
      end
  end.

(** ** A concrete environment

    A bucket holding JSON manifests and raw objects, a set of existing
    local paths, and the behaviour of the external tools.  It is used to
    run the stages on concrete inputs; the general theorems below do not
    depend on it. *)
Module World.

Inductive blob :=
| BLedger (l : ledger)
| BInventory (i : inventory)
| BData.

Record world := World {
  s3 : gmap string blob;
  denied : gset string;        (* keys whose GET is refused *)
  files : gset string;         (* paths that exist *)
  split_suffixes : list string;(* the parts [split] produces *)
  exits : pipe_status          (* what the two processes exit with *)
}.

Definition with_s3 (w : world) (s : gmap string blob) : world :=
  World s (denied w) (files w) (split_suffixes w) (exits w).
Definition with_files (w : world) (f : gset string) : world :=
  World (s3 w) (denied w) f (split_suffixes w) (exits w).

Definition obj_get (w : world) (key : string) : S3_Wrapper.get_reply blob :=
  if decide (key ∈ denied w) then S3_Wrapper.GotClientError "AccessDenied"
  else match s3 w !! key with
       | Some b => S3_Wrapper.GotBody b
       | None => S3_Wrapper.GotClientError "NoSuchKey"
       end.

Definition loads_ledger (b : blob) : result ledger :=
  match b with
  | BLedger l => Ok l
  | _ => Raise JSONDecodeError
  end.

Definition loads_inventory (b : blob) : result inventory :=
  match b with
  | BInventory i => Ok i
  | _ => Raise JSONDecodeError
  end.

Definition is_child (dir p : string) : bool :=
  bool_decide (p ≠ dir ∧ p = path_join dir (path_name p)).

(** The operand that follows [flag] on a command line. *)
Fixpoint operand (flag : string) (argv : list string) : option string :=
  match argv with
  | a :: ((b :: _) as rest) => if decide (a = flag) then Some b else operand flag rest
  | _ => None
  end.

(** The files a pipeline leaves behind: [zstd ... -o OUT] writes [OUT],
    [split -b N - PREFIX] writes [PREFIX ++ suffix] for each part. *)
Definition produced (w : world) (cmd2 : list string) : list string :=
  match cmd2 with
  | "split" :: _ => (λ s, default "" (last cmd2) +:+ s) <$> split_suffixes w
  | _ => option_list (operand "-o" cmd2)
  end.

Definition need (w : world) (path : string) (w' : world) : result unit * world :=
  if decide (path ∈ files w) then (Ok tt, w')
  else (Raise (OSError "FileNotFoundError"), w).

Definition step : handler world := λ w c,
  match c return result (resp c) * world with
  | GetLedger key default =>
      (S3_Wrapper.get_from_json loads_ledger (obj_get w key) default, w)
  | GetInventory key default =>
      (S3_Wrapper.get_from_json loads_inventory (obj_get w key) default, w)
  | PutLedger state key => (Ok tt, with_s3 w (<[key := BLedger state]> (s3 w)))
  | DownloadFile key path =>
      match s3 w !! key with
      | Some _ => (Ok tt, with_files w ({[path]} ∪ files w))
      | None => (Raise (ClientError "404"), w)
      end
  | UploadFile path key => need w path (with_s3 w (<[key := BData]> (s3 w)))
  | DeleteObject key => (Ok tt, with_s3 w (delete key (s3 w)))
  | ListKeys prefix => (Ok (filter (λ k, String.prefix prefix k = true)
                              (elements (dom (s3 w)))), w)
  | Iterdir path =>
      if decide (path ∈ files w)
      then (Ok (filter (λ p, is_child path p = true) (elements (files w))), w)
      else (Raise (OSError "FileNotFoundError"), w)
  | Unlink path => need w path (with_files w (files w ∖ {[path]}))
  | Rmdir path => need w path (with_files w (files w ∖ {[path]}))
  | Mkdir path parents exist_ok =>
      if decide (path ∈ files w)
      then (if exist_ok then (Ok tt, w) else (Raise (OSError "FileExistsError"), w))
      else (Ok tt, with_files w ({[path]} ∪ files w))
  | Exists path => (Ok (bool_decide (path ∈ files w)), w)
  | Utime path _ _ => need w path w
  | Chmod path _ => need w path w
  | Rename src dst => need w src (with_files w ({[dst]} ∪ files w ∖ {[src]}))
  | Pipe cmd1 cmd2 =>
      (Ok (exits w), with_files w (list_to_set (produced w cmd2) ∪ files w))
  end.

End World.

(** ** Notions used in the statements *)

(** An error carries an exit code when the code is among its arguments. *)
Definition carries_code (e : exn) (rc : Z) : Prop :=
  match e with
  | PyException args => ArgInt rc ∈ args
  | _ => False
  end.

(** A world whose pipelines end with the given exit statuses. *)
Definition world_exiting (rc1 rc2 : Z) : World.world :=
  World.World ∅ ∅ ∅ [] (PipeStatus rc1 rc2).

(** Projections of a trace. *)
Definition cmds_of (t : list event) : list cmd :=
  omap (λ ev, match ev with Called c _ => Some c | Logged _ => None end) t.

Definition logs_of (t : list event) : list log_record :=
  omap (λ ev, match ev with Logged l => Some l | Called _ _ => None end) t.

Definition pipes_of (t : list event) : list (list string * list string) :=
  omap (λ c, match c with Pipe c1 c2 => Some (c1, c2) | _ => None end) (cmds_of t).

Definition uploads_of (t : list event) : list (string * string) :=
  omap (λ c, match c with UploadFile p k => Some (p, k) | _ => None end) (cmds_of t).

(** A destination holding one downloaded file [f] whose parts are listed
    in the download ledger in the given order; [/dst/f] may already be
    there. *)
Definition world_reassemble (part_paths : list string) (delivered : bool)
  : World.world :=
  World.World
    (<["download.json" := World.BLedger {["f" := part_paths]}]>
       {["origin.json" :=
           World.BInventory {["f" := FileDesc "/origin/f" 25000000 1700000100 1700000000]}]})
    ∅
    (list_to_set part_paths ∪ (if delivered then {["/dst/f"]} else ∅))
    []
    (PipeStatus 0 0).

(** A bucket in which the upload of [a] is already recorded in
    [upload.json] and its part is in the store. *)
Definition world_uploaded : World.world :=
  World.World
    (<["upload.json" := World.BLedger {["a" := ["parts/w/a/aa"]]}]>
       (<["disassemble.json" := World.BLedger {["a" := ["/w/a/aa"]]}]>
          (<["target.json" := World.BInventory ∅]>
             {["parts/w/a/aa" := World.BData]})))
    ∅ {["/w/a/aa"]} [] (PipeStatus 0 0).

(** A destination where [a] is downloaded and delivered, and [b] is
    published by the uploader and not yet fetched. *)
Definition world_downloaded : World.world :=
  World.World
    (<["download.json" := World.BLedger {["a" := ["/d/a/aa"]]}]>
       (<["upload.json" := World.BLedger
                            (<["a" := ["parts/w/a/aa"]]> {["b" := ["parts/w/b/aa"]]})]>
          (<["target.json" :=
               World.BInventory {["a" := FileDesc "/dst/a" 100 1700000100 1700000000]}]>
             (<["parts/w/a/aa" := World.BData]> {["parts/w/b/aa" := World.BData]}))))
    ∅ (list_to_set ["/d"; "/d/a"; "/d/a/aa"]) [] (PipeStatus 0 0).

(** An uploader interrupted between the two parts of [f]: part [aa] is
    in the store, nothing is recorded in [upload.json] yet. *)
Definition world_interrupted : World.world :=
  World.World
    (<["disassemble.json" := World.BLedger {["f" := ["/w/f/aa"; "/w/f/ab"]]}]>
       (<["target.json" := World.BInventory ∅]>
          {["parts/w/f/aa" := World.BData]}))
    ∅ (list_to_set ["/w/f/aa"; "/w/f/ab"]) [] (PipeStatus 0 0).

(** The command writes to, moves or removes the path [p].  A pipeline
    writes what its second process writes: [zstd ... -o OUT] writes
    [OUT], [split ... PREFIX] writes paths that begin with [PREFIX]. *)
Definition modifies (c : cmd) (p : string) : Prop :=
  match c with
  | DownloadFile _ q | Unlink q | Rmdir q | Mkdir q _ _ | Utime q _ _ | Chmod q _ =>
      q = p
  | Rename src dst => src = p ∨ dst = p
  | Pipe _ cmd2 =>
      match cmd2 with
      | "split" :: _ => String.prefix (default "" (last cmd2)) p = true
      | _ => World.operand "-o" cmd2 = Some p
      end
  | _ => False
  end.



(** What a trace shows of transfers and ledger writes: a part transfer
    that completed, or a write of the ledger. *)
Inductive step_kind := Transfer | Persist.

Definition kind_of (ev : event) : option step_kind :=
  match ev with
  | Called (UploadFile _ _) (Returned _) => Some Transfer
  | Called (DownloadFile _ _) (Returned _) => Some Transfer
  | Called (PutLedger _ _) _ => Some Persist
  | _ => None
  end.

Definition shape (t : list event) : list step_kind := omap kind_of t.

(** Every completed transfer is directly followed by a ledger write. *)
Fixpoint persisted_after_each_part (s : list step_kind) : bool :=
  match s with
  | [] => true
  | Persist :: s' => persisted_after_each_part s'
  | Transfer :: s' =>
      match s' with
      | Persist :: _ => persisted_after_each_part s'
      | _ => false
      end
  end.

(** The parts of [fname] that upload transfers: those whose key is not in
    the listing. *)
Definition parts_to_upload (src_state : ledger) (uploaded_parts : list string)
    (fname : string) : list string :=
  filter (λ part_path, str_in ("parts" +:+ part_path) uploaded_parts = false)
    (default [] (src_state !! fname)).

(** The key upload derives from a part path, and the path download
    derives from a part key. *)
Definition part_key (part_path : string) : string := "parts" +:+ part_path.
Definition part_dst (work_dir origin_path part_key : string) : string :=
  path_join (path_join work_dir origin_path) (path_name part_key).

(** What a trace shows of transfers and ledger writes, in full: a part
    transfer that completed, from where to where, and a write of a
    manifest, with the state written and the key written to, whether the
    write returned or raised. *)
Inductive step :=
| Transferred (src dst : string)
| Wrote (state : ledger) (key : string).

Definition step_of (ev : event) : option step :=
  match ev with
  | Called (UploadFile path key) (Returned _) => Some (Transferred path key)
  | Called (DownloadFile key path) (Returned _) => Some (Transferred key path)
  | Called (PutLedger state key) _ => Some (Wrote state key)
  | _ => None
  end.

Definition steps (t : list event) : list step := omap step_of t.

(** Writing the ledger once per logical-id, after all its parts: the
    steps of one logical-id are a transfer of each of its parts (for
    upload, those whose key is not in the listing), in source order,
    followed by one write, under the stage's key, of the ledger with
    what was transferred added to the entry of that id; the second
    component is the ledger written. *)
Definition upload_file_steps (src_state : ledger) (uploaded_parts : list string)
    (key fname : string) (my_state : ledger) : list step * ledger :=
  let parts := parts_to_upload src_state uploaded_parts fname in
  let written :=
    <[fname := default [] (my_state !! fname) ++ (part_key <$> parts)]> my_state in
  (((λ p, Transferred p (part_key p)) <$> parts) ++ [Wrote written key], written).

Definition download_file_steps (work_dir : string) (src_state : ledger)
    (key origin_path : string) (my_state : ledger) : list step * ledger :=
  let part_keys := default [] (src_state !! origin_path) in
  let dst := part_dst work_dir origin_path in
  let written :=
    <[origin_path := default [] (my_state !! origin_path) ++ (dst <$> part_keys)]>
      my_state in
  (((λ k, Transferred k (dst k)) <$> part_keys) ++ [Wrote written key], written).

(** What one part is to show: for upload nothing when its key is
    listed, otherwise its transfer, and the name recorded for it. *)
Definition upload_item (uploaded_parts : list string) (part_path : string)
  : option (step * string) :=
  if str_in (part_key part_path) uploaded_parts then None
  else Some (Transferred part_path (part_key part_path), part_key part_path).

Definition download_item (chunks_dir : string) (part_key : string)
  : option (step * string) :=
  Some (Transferred part_key (path_join chunks_dir (path_name part_key)),
        path_join chunks_dir (path_name part_key)).

(** What the run of one logical-id shows, however it ends: its steps
    are the first of those it is to show; all of them, and the ledger
    written is handed on, when it completes; and no ledger write has
    returned when it does not. *)
Definition file_run_ok (file_steps : list step * ledger) (t : list event)
    (r : result ledger) : Prop :=
  steps t `prefix_of` file_steps.1 ∧
  (∀ m', r = Ok m' → steps t = file_steps.1 ∧ m' = file_steps.2) ∧
  (∀ e, r = Raise e → ∀ s k a, Called (PutLedger s k) (Returned a) ∉ t).

(** The steps of the logical-ids [ids] in turn, each starting from the
    ledger the one before it has written. *)
Fixpoint loop_steps (file_steps : string → ledger → list step * ledger)
    (ids : list string) (my_state : ledger) : list step :=
  match ids with
  | [] => []
  | x :: ids' =>
      (file_steps x my_state).1 ++ loop_steps file_steps ids' (file_steps x my_state).2
  end.

(** A source with one disassembled file of two parts, nothing uploaded. *)
Definition world_disassembled : World.world :=
  World.World
    (<["disassemble.json" := World.BLedger {["f" := ["/w/f/aa"; "/w/f/ab"]]}]>
       {["target.json" := World.BInventory ∅]})
    ∅ (list_to_set ["/w/f/aa"; "/w/f/ab"]) [] (PipeStatus 0 0).

(** The same source after the second part has gone missing from the
    disk: its transfer raises. *)
Definition world_part_missing : World.world :=
  World.with_files world_disassembled {["/w/f/aa"]}.

(** A destination with one published file of two parts, nothing fetched. *)
Definition world_published : World.world :=
  World.World
    (<["upload.json" := World.BLedger {["f" := ["parts/w/f/aa"; "parts/w/f/ab"]]}]>
       (<["target.json" := World.BInventory ∅]>
          (<["parts/w/f/aa" := World.BData]> {["parts/w/f/ab" := World.BData]})))
    ∅ {["/d"]} [] (PipeStatus 0 0).

(** The events of a fetch that returned. *)
Definition got_ledger (key : string) (default : option ledger) (l : ledger) : event :=
  Called (GetLedger key default) (Returned (ALedger l)).
Definition got_inventory (key : string) (default : option inventory) (i : inventory)
  : event :=
  Called (GetInventory key default) (Returned (AInventory i)).

(** The run [x] with the events [t0] put before it. *)
Definition prepend {W A} (t0 : list event) (x : W * list event * result A)
  : W * list event * result A :=
  let '(w', t, r) := x in (w', t0 ++ t, r).

(** The run [x] with the events [t0] put before it and its value
    dropped: what a stage makes of the run of its last loop. *)
Definition after {W A} (t0 : list event) (x : W * list event * result A)
  : W * list event * result unit :=
  let '(w', t, r) := x in
  (w', t0 ++ t, match r with Ok _ => Ok tt | Raise e => Raise e end).

(** * Properties *)

(** ** Running sequenced programs *)

Section run_facts.
Context {W : Type} (h : handler W).

Lemma run_bind {A B} (p : prog A) (f : A → prog B) w :
  run h (p ≫= f) w =
    match run h p w with
    | (w1, t1, Ok a) =>
        let '(w2, t2, r) := run h (f a) w1 in (w2, t1 ++ t2, r)
    | (w1, t1, Raise e) => (w1, t1, Raise e)
    end.
Proof.
  unfold mbind, prog_bind. revert w.
  induction p as [a|e|l k IH|c k IH]; intros w; simpl.
  - by destruct (run h (f a) w) as [[??]?].
  - done.
  - rewrite IH. destruct (run h k w) as [[w1 t1] [a|e]]; [|done].
    by destruct (run h (f a) w1) as [[??]?].
  - destruct (h w c) as [[x|e] w1]; [|done].
    rewrite IH. destruct (run h (k x) w1) as [[w2 t2] [a|e]]; [|done].
    by destruct (run h (f a) w2) as [[??]?].
Qed.

(** A sequence completes only if both halves do. *)
Lemma run_bind_Ok {A B} (p : prog A) (f : A → prog B) w w' t b :
  run h (p ≫= f) w = (w', t, Ok b) →
  ∃ w1 t1 a t2,
    run h p w = (w1, t1, Ok a) ∧ run h (f a) w1 = (w', t2, Ok b) ∧ t = t1 ++ t2.
Proof.
  rewrite run_bind. destruct (run h p w) as [[w1 t1] [a|e]]; [|done].
  destruct (run h (f a) w1) as [[w2 t2] r] eqn:E.
  intros [= -> <- ->]. by exists w1, t1, a, t2.
Qed.

Lemma run_call_Ok (c : cmd) w w' t x :
  run h (call c) w = (w', t, Ok x) →
  h w c = (Ok x, w') ∧ t = [Called c (Returned (reify c x))].
Proof.
  simpl. destruct (h w c) as [[y|e] w1]; [|done]. by intros [= -> <- ->].
Qed.

Lemma run_log_eq lvl fmt args w :
  run h (log lvl fmt args) w = (w, [Logged (LogRecord lvl fmt args)], Ok tt).
Proof. done. Qed.

Lemma run_for_each_cons {X S} (body : X → S → prog S) x l s w :
  run h (for_each (x :: l) body s) w =
    match run h (body x s) w with
    | (w1, t1, Ok s1) =>
        let '(w2, t2, r) := run h (for_each l body s1) w1 in (w2, t1 ++ t2, r)
    | (w1, t1, Raise e) => (w1, t1, Raise e)
    end.
Proof. simpl. apply run_bind. Qed.

(** A sequence stops in its first half or goes on into the second. *)
Lemma run_bind_inv {A B} (p : prog A) (f : A → prog B) w w' t r :
  run h (p ≫= f) w = (w', t, r) →
  (∃ e, r = Raise e ∧ run h p w = (w', t, Raise e)) ∨
  (∃ w1 t1 a t2,
      run h p w = (w1, t1, Ok a) ∧ run h (f a) w1 = (w', t2, r) ∧ t = t1 ++ t2).
Proof.
  rewrite run_bind. destruct (run h p w) as [[w1 t1] [a|e]].
  - destruct (run h (f a) w1) as [[w2 t2] r2] eqn:E.
    intros [= <- <- <-]. right. by exists w1, t1, a, t2.
  - intros [= <- <- <-]. left. by exists e.
Qed.

Lemma run_call_inv (c : cmd) w w' t r :
  run h (call c) w = (w', t, r) →
  (∃ x, h w c = (Ok x, w') ∧ r = Ok x ∧ t = [Called c (Returned (reify c x))]) ∨
  (∃ e, h w c = (Raise e, w') ∧ r = Raise e ∧ t = [Called c (Raised e)]).
Proof.
  simpl. destruct (h w c) as [[x|e] w1]; intros [= <- <- <-]; [left|right]; eauto.
Qed.

(** Going on after a first half that completed. *)
Lemma run_then {A B} (p : prog A) (f : A → prog B) w w1 t1 a :
  run h p w = (w1, t1, Ok a) →
  run h (p ≫= f) w = prepend t1 (run h (f a) w1).
Proof. intros Hp. by rewrite run_bind, Hp. Qed.

Lemma run_call_then {A} (c : cmd) (f : resp c → prog A) w w1 x :
  h w c = (Ok x, w1) →
  run h (call c ≫= f) w = prepend [Called c (Returned (reify c x))] (run h (f x) w1).
Proof. intros Hc. apply run_then. simpl. by rewrite Hc. Qed.

Lemma run_drop {A} (p : prog A) w :
  run h (p ≫= λ _, Ret tt) w = after [] (run h p w).
Proof.
  rewrite run_bind. destruct (run h p w) as [[w1 t1] [a|e]]; simpl; [|done].
  by rewrite app_nil_r.
Qed.

Lemma prepend_after {A} t0 t1 (x : W * list event * result A) :
  prepend t0 (after t1 x) = after (t0 ++ t1) x.
Proof. destruct x as [[w' t] r]. simpl. by rewrite app_assoc. Qed.

Lemma prepend_prepend {A} t0 t1 (x : W * list event * result A) :
  prepend t0 (prepend t1 x) = prepend (t0 ++ t1) x.
Proof. destruct x as [[w' t] r]. simpl. by rewrite app_assoc. Qed.
End run_facts.

(** Invert a hypothesis stating that a sequenced program has completed. *)
Ltac run_inv H :=
  let w1 := fresh "w" in let t1 := fresh "t" in
  let a := fresh "a" in let t2 := fresh "t" in
  let H1 := fresh "Hrun" in let H2 := fresh "Hrun" in
  apply run_bind_Ok in H as (w1 & t1 & a & t2 & H1 & H2 & ->).

(** ** The store wrapper *)

(** C6: [get_from_json] returns the supplied default when the blob is
    missing and a default was supplied, raises [NoSuchKeyError] when the
    blob is missing and none was supplied, and decodes the blob when
    there is one, whatever the default.  It returns a value in these
    cases only: a value returned is either the default, on a missing
    blob, or the decoded body; every other reply raises, also when a
    default was supplied.  In a stage: [disassemble] of
    [src/cta-ingest.py] fetches [target.json] without a default, so that
    when the wrapper finds it missing the stage ends there with
    [NoSuchKeyError], having issued nothing but its three fetches;
    [disassemble] of [src/cta_ingest/__main__.py] supplies the default
    and goes on with an empty target. *)
Theorem get_from_json_missing_or_present {B J : Type} (json_loads : B → result J) :
  let missing : S3_Wrapper.get_reply B := S3_Wrapper.GotClientError "NoSuchKey" in
  (∀ d, S3_Wrapper.get_from_json json_loads missing (Some d) = Ok d) ∧
  S3_Wrapper.get_from_json json_loads missing None = Raise NoSuchKeyError ∧
  (∀ body kwargs_default,
     S3_Wrapper.get_from_json json_loads (S3_Wrapper.GotBody body) kwargs_default
       = json_loads body) ∧
  (∀ reply kwargs_default v,
     S3_Wrapper.get_from_json json_loads reply kwargs_default = Ok v →
     (reply = missing ∧ kwargs_default = Some v) ∨
     (∃ body, reply = S3_Wrapper.GotBody body ∧ json_loads body = Ok v)) ∧
  (∀ reply kwargs_default,
     reply ≠ missing → (∀ body, reply ≠ S3_Wrapper.GotBody body) →
     ∃ e, S3_Wrapper.get_from_json json_loads reply kwargs_default = Raise e) ∧
  (∀ W (h : handler W) (loads : B → result inventory) w w1 w2 w3
     work_dir part_size dry_run (M : ledger) (O : inventory),
     h w (GetLedger "disassemble.json" (Some ∅)) = (Ok M, w1) →
     h w1 (GetInventory "origin.json" (Some ∅)) = (Ok O, w2) →
     h w2 (GetInventory "target.json" None)
       = (S3_Wrapper.get_from_json loads (S3_Wrapper.GotClientError "NoSuchKey") None,
          w3) →
     run h (CtaIngest.disassemble work_dir part_size dry_run) w
       = (w3,
          [got_ledger "disassemble.json" (Some ∅) M;
           got_inventory "origin.json" (Some ∅) O;
           Called (GetInventory "target.json" None) (Raised NoSuchKeyError)],
          Raise NoSuchKeyError)) ∧
  (∀ W (h : handler W) (loads : B → result inventory) w w1 w2 w3
     work_dir (M : ledger) (O : inventory),
     h w (GetLedger "disassemble.json" (Some ∅)) = (Ok M, w1) →
     h w1 (GetInventory "origin.json" (Some ∅)) = (Ok O, w2) →
     h w2 (GetInventory "target.json" (Some ∅))
       = (S3_Wrapper.get_from_json loads (S3_Wrapper.GotClientError "NoSuchKey")
            (Some ∅), w3) →
     run h (Main.disassemble work_dir) w
       = after [got_ledger "disassemble.json" (Some ∅) M;
                got_inventory "origin.json" (Some ∅) O;
                got_inventory "target.json" (Some ∅) ∅]
           (run h (for_each (elements (dom O ∖ dom M))
                     (Main.disassemble_one work_dir O "disassemble.json") M) w3)).
Proof.
  intros missing. repeat split.
  - intros reply kw v Hget. destruct reply as [body|code|e]; simpl in Hget.
    + right. by exists body.
    + left. destruct (decide (code = "NoSuchKey")) as [->|]; [|done].
      destruct kw; by simplify_eq.
    + done.
  - intros reply kw Hmiss Hbody. destruct reply as [body|code|e]; simpl.
    + by destruct (Hbody body).
    + destruct (decide (code = "NoSuchKey")) as [->|]; [done|]. by eexists.
    + by eexists.
  - intros W h loads w w1 w2 w3 work_dir part_size dry_run M O H1 H2 H3.
    unfold CtaIngest.disassemble. simpl. rewrite H1. simpl. rewrite H2. simpl.
    rewrite H3. done.
  - intros W h loads w w1 w2 w3 work_dir M O H1 H2 H3.
    unfold Main.disassemble, Main.my_delivered, Main.disassemble_unprocessed.
    simpl. rewrite H1. simpl. rewrite H2. simpl. rewrite H3. simpl.
    rewrite dom_empty_L, intersection_empty_r_L, elements_empty. simpl.
    rewrite difference_empty_L, run_bind.
    destruct (run h (for_each _ _ _) w3) as [[w' t] [m|e]]; simpl;
      by rewrite ?app_nil_r.
Qed.

(** A bucket with an origin inventory and nothing else. *)
Lemma get_from_json_missing_or_present_witness :
  let w := World.World
             {["origin.json" := World.BInventory
                                  {["f" := FileDesc "/origin/f" 25 1700000100 1700000000]}]}
             ∅ ∅ [] (PipeStatus 0 0) in
  run World.step (CtaIngest.disassemble "/w" 10 false) w
    = (w,
       [got_ledger "disassemble.json" (Some ∅) ∅;
        got_inventory "origin.json" (Some ∅)
          {["f" := FileDesc "/origin/f" 25 1700000100 1700000000]};
        Called (GetInventory "target.json" None) (Raised NoSuchKeyError)],
       Raise NoSuchKeyError).
Proof.
  intros w.
  apply (proj1 (proj2 (proj2 (proj2 (proj2 (proj2
           (get_from_json_missing_or_present World.loads_inventory))))))
           World.world World.step World.loads_inventory w w w w);
    vm_compute; reflexivity.
Defined.

(** C10: every client error other than the missing-key code raises
    [NoSuchKeyError], the very error of a missing blob without default,
    also when a default was supplied. *)
Theorem get_from_json_other_client_error {B J : Type}
    (json_loads : B → result J) (code : string) (kwargs_default : option J) :
  code ≠ "NoSuchKey" →
  S3_Wrapper.get_from_json json_loads (S3_Wrapper.GotClientError code) kwargs_default
    = Raise NoSuchKeyError ∧
  S3_Wrapper.get_from_json json_loads (S3_Wrapper.GotClientError code) kwargs_default
    = S3_Wrapper.get_from_json json_loads (S3_Wrapper.GotClientError "NoSuchKey") None.
Proof.
  intros Hcode. unfold S3_Wrapper.get_from_json.
  destruct (decide (code = "NoSuchKey")) as [?|_]; [done|].
  by destruct (decide ("NoSuchKey" = "NoSuchKey")).
Qed.

Lemma get_from_json_other_client_error_witness :
  "AccessDenied" ≠ "NoSuchKey" ∧
  S3_Wrapper.get_from_json World.loads_ledger
    (S3_Wrapper.GotClientError "AccessDenied") (Some ∅) = Raise NoSuchKeyError.
Proof.
  split; [done|].
  apply (get_from_json_other_client_error World.loads_ledger "AccessDenied" (Some ∅)).
  done.
Defined.

(** ** The transform pipeline *)

(** C7, as stated, fails in [src/cta_ingest/__main__.py]: the second
    process exits with 3 and the error raised does not carry the 3. *)
Lemma main_pipeline_error_drops_exit_code :
  result_of (run World.step (Main._run_pipeline ["cat"; "/w/f/aa"] ["zstd"; "-d"])
               (world_exiting 0 3))
    = Raise (PyException [ArgStr "NonZeroReturnCode"]) ∧
  ¬ carries_code (PyException [ArgStr "NonZeroReturnCode"]) 3.
Proof.
  split; [done|]. simpl. intros Hin.
  apply list_elem_of_singleton in Hin. discriminate Hin.
Qed.

(** C7 (amended): when the second process exits non-zero, the pipeline of
    [src/cta-ingest.py] raises an [Exception] carrying the tag, that exit
    code and both command lines, and the pipeline of
    [src/cta_ingest/__main__.py] raises an [Exception] carrying the tag
    only; when the second process exits zero neither raises, whatever the
    first process exited with. *)
Theorem run_pipeline_exit_code {W : Type} (h : handler W) (w w' : W)
    (cmd1 cmd2 : list string) (st : pipe_status) :
  h w (Pipe cmd1 cmd2) = (Ok st, w') →
  (p2_returncode st ≠ 0 →
     result_of (run h (CtaIngest._run_pipeline cmd1 cmd2) w)
       = Raise (PyException [ArgStr "NonZeroReturnCode"; ArgInt (p2_returncode st);
                             ArgStrs cmd1; ArgStrs cmd2]) ∧
     carries_code (PyException [ArgStr "NonZeroReturnCode"; ArgInt (p2_returncode st);
                                ArgStrs cmd1; ArgStrs cmd2]) (p2_returncode st) ∧
     result_of (run h (Main._run_pipeline cmd1 cmd2) w)
       = Raise (PyException [ArgStr "NonZeroReturnCode"])) ∧
  (p2_returncode st = 0 →
     result_of (run h (CtaIngest._run_pipeline cmd1 cmd2) w) = Ok tt ∧
     result_of (run h (Main._run_pipeline cmd1 cmd2) w) = Ok tt).
Proof.
  intros Hh. unfold CtaIngest._run_pipeline, Main._run_pipeline.
  rewrite !run_bind. simpl. rewrite Hh. simpl.
  split; intros Hrc.
  - destruct (decide (p2_returncode st ≠ 0)) as [_|?]; [|done].
    repeat split. simpl. set_solver.
  - destruct (decide (p2_returncode st ≠ 0)) as [?|_]; done.
Qed.

Lemma run_pipeline_exit_code_witness :
  result_of (run World.step (CtaIngest._run_pipeline ["cat"] ["zstd"])
               (world_exiting 1 0)) = Ok tt ∧
  result_of (run World.step (Main._run_pipeline ["cat"] ["zstd"])
               (world_exiting 1 0)) = Ok tt.
Proof.
  apply (run_pipeline_exit_code World.step (world_exiting 1 0) (world_exiting 1 0)
           ["cat"] ["zstd"] (PipeStatus 1 0)); reflexivity.
Defined.

(** ** Part order in reassemble *)

#[local] Instance str_le_total : Total str_le.
Proof. intros a b. apply String.leb_total. Qed.

(** [src/cta-ingest.py] hands [cat] the parts ascending, whatever their
    order in the ledger entry. *)
Lemma cat_cmd_sorted (part_paths : list string) :
  ∃ l, CtaIngest.cat_cmd part_paths = "cat" :: l ∧
       Sorted str_le l ∧ l ≡ₚ part_paths.
Proof.
  exists (sorted part_paths). split; [done|]. split.
  - apply (Sorted_merge_sort str_le).
  - apply (merge_sort_Permutation str_le).
Qed.

(** C3 at a ledger entry listing part [ab] before part [aa]:
    [src/cta_ingest/__main__.py] concatenates [ab] before [aa], while
    [src/cta-ingest.py] concatenates [aa] before [ab]. *)
Theorem main_reassemble_keeps_ledger_order :
  pipes_of (trace_of (run World.step (Main.reassemble "/r" "/dst")
                        (world_reassemble ["/w/f/ab"; "/w/f/aa"] false)))
    = [(["cat"; "/w/f/ab"; "/w/f/aa"],
        ["zstd"; "--quiet"; "--force"; "--decompress"; "-o"; "/r/f"])] ∧
  pipes_of (trace_of (run World.step (CtaIngest.reassemble "/r" "/dst")
                        (world_reassemble ["/w/f/ab"; "/w/f/aa"] false)))
    = [(["cat"; "/w/f/aa"; "/w/f/ab"],
        ["zstd"; "--quiet"; "--force"; "--decompress"; "-o"; "/r/f"])].
Proof. split; vm_compute; reflexivity. Qed.

(** ** The progress meter *)

(** C4 at a transfer whose byte count does not move over an update
    interval.  With the intervals the store wrapper configures (120 s in
    [src/cta-ingest.py], 0.1 s in [src/cta_ingest/__main__.py]) and a file
    of 100 bytes: a callback of 50 bytes, then either a callback of 0
    bytes, or callbacks of +30 and -30 bytes (a part sent again), the last
    one an interval later.  The instantaneous rate is zero and the ETA
    division raises [ZeroDivisionError] in both files. *)
Theorem progress_meter_zero_rate_raises :
  (feed CtaIngestMeter.__call__ (ProgressMeter_init "...f/aa" 100 120)
     [(0%Q, 50); (10%Q, 0)]).2 = Raise ZeroDivisionError ∧
  (feed CtaIngestMeter.__call__ (ProgressMeter_init "...f/aa" 100 120)
     [(0%Q, 50); (5%Q, 30); (10%Q, -30)]).2 = Raise ZeroDivisionError ∧
  (feed MainMeter.__call__ (ProgressMeter_init "...f/aa" 100 (1 # 10))
     [(0%Q, 50); (1 # 10, 0)]).2 = Raise ZeroDivisionError ∧
  (feed MainMeter.__call__ (ProgressMeter_init "...f/aa" 100 (1 # 10))
     [(0%Q, 50); (1 # 20, 30); (1 # 10, -30)]).2 = Raise ZeroDivisionError.
Proof. repeat split; vm_compute; reflexivity. Qed.

(** A negative rate alone does not raise: the line is reported with the
    negative figures. *)
Lemma progress_meter_negative_rate_reported :
  ∃ eta : Q,
    (feed CtaIngestMeter.__call__ (ProgressMeter_init "...f/aa" 100 120)
       [(0%Q, 50); (10%Q, -10)]).2
      = Ok [Progress "...f/aa" 10 40 100 (4000 # 100) (-10 # 120) (40 # 10) [eta]]
    ∧ (eta < 0)%Q.
Proof. eexists. split; [vm_compute; reflexivity|]. reflexivity. Qed.

(** ** The set of new work *)

Section cleanup.
Context {W : Type} (h : handler W).

Lemma run_dict_pop_Ok (k : string) (m m' : ledger) w w' t :
  run h (dict_pop k m) w = (w', t, Ok m') → m' = delete k m.
Proof. unfold dict_pop. destruct (m !! k); simpl; congruence. Qed.

Lemma run_Ret_Ok {A} (a b : A) w w' t :
  run h (Ret a) w = (w', t, Ok b) → b = a ∧ w' = w ∧ t = [].
Proof. simpl. by intros [= -> <- ->]. Qed.

(** A sweep whose body drops the id it is given leaves the ledger
    without the ids swept. *)
Lemma sweep_dom (body : string → ledger → prog ledger) :
  (∀ x m w w' t m', run h (body x m) w = (w', t, Ok m') → m' = delete x m) →
  ∀ ids (m m' : ledger) w w' t,
    run h (for_each ids body m) w = (w', t, Ok m') →
    dom m' = dom m ∖ list_to_set ids.
Proof.
  intros Hbody ids. induction ids as [|x ids IH]; intros m m' w w' t Hrun.
  - apply run_Ret_Ok in Hrun as (-> & _).
    by rewrite list_to_set_nil, difference_empty_L.
  - rewrite run_for_each_cons in Hrun.
    destruct (run h (body x m) w) as [[w1 t1] [m1|e]] eqn:E1; [|done].
    destruct (run h (for_each ids body m1) w1) as [[w2 t2] r] eqn:E2.
    injection Hrun as -> <- ->.
    apply Hbody in E1 as ->. apply IH in E2 as ->.
    by rewrite dom_delete_L, list_to_set_cons, difference_difference_l_L.
Qed.
End cleanup.

(** Split a completed sequence into its completed steps. *)
Ltac run_steps :=
  repeat match goal with
         | H : run _ (_ ≫= _) _ = (_, _, Ok _) |- _ => run_inv H; cbv beta in *
         | H : run _ (Ret _) _ = (_, _, Ok _) |- _ =>
             apply run_Ret_Ok in H as (-> & -> & ->)
         | H : run _ (dict_pop _ _) _ = (_, _, Ok _) |- _ =>
             apply run_dict_pop_Ok in H as ->
         end.

Lemma cta_download_cleanup_pops {W} (h : handler W) wd key x (m m' : ledger) w w' t :
  run h (CtaIngest.download_cleanup wd key x m) w = (w', t, Ok m') → m' = delete x m.
Proof. unfold CtaIngest.download_cleanup. intros H. by run_steps. Qed.

Lemma main_download_cleanup_pops {W} (h : handler W) wd key x (m m' : ledger) w w' t :
  run h (Main.download_cleanup wd key x m) w = (w', t, Ok m') → m' = delete x m.
Proof. unfold Main.download_cleanup. intros H. by run_steps. Qed.

Lemma main_disassemble_cleanup_pops {W} (h : handler W) wd key x (m m' : ledger) w w' t :
  run h (Main.disassemble_cleanup wd key x m) w = (w', t, Ok m') → m' = delete x m.
Proof. unfold Main.disassemble_cleanup. intros H. by run_steps. Qed.

Lemma cta_disassemble_cleanup_pops {W} (h : handler W) wd key x (m m' : ledger) w w' t :
  run h (CtaIngest.disassemble_cleanup wd key x m) w = (w', t, Ok m') → m' = delete x m.
Proof. unfold CtaIngest.disassemble_cleanup. intros H. by run_steps. Qed.

Lemma cta_upload_cleanup_pops {W} (h : handler W) key x (m m' : ledger) w w' t :
  run h (CtaIngest.upload_cleanup key x m) w = (w', t, Ok m') → m' = delete x m.
Proof. unfold CtaIngest.upload_cleanup. intros H. by run_steps. Qed.

Lemma main_upload_cleanup_pops {W} (h : handler W) key x (m m' : ledger) w w' t :
  run h (Main.upload_cleanup key x m) w = (w', t, Ok m') → m' = delete x m.
Proof. unfold Main.upload_cleanup. intros H. by run_steps. Qed.


(** Taking the delivered ids out once more changes nothing: they are in
    the target. *)
Lemma minus_delivered (X M T : gset string) :
  X ∖ M ∖ T ∖ (M ∩ T) = X ∖ M ∖ T.
Proof.
  apply set_eq. intros x.
  rewrite !elem_of_difference, elem_of_intersection. tauto.
Qed.

(** Dropping the delivered ids from the ledger does not change what is
    left of the source after the ledger and the target are taken out. *)
Lemma minus_swept_ledger (S M M' T : gset string) :
  M' = M ∖ (M ∩ T) → S ∖ M' ∖ T = S ∖ M ∖ T.
Proof.
  intros ->. apply set_eq. intros x.
  rewrite !elem_of_difference, elem_of_intersection. split.
  - intros [[HS HM] HT]. repeat split; [done| |done]. intros HxM. apply HM. tauto.
  - intros [[HS HM] HT]. repeat split; [done| |done]. tauto.
Qed.

(** What is left of the source once a completed sweep has dropped the
    delivered ids from the ledger. *)
Lemma new_work_after_sweep {W} (h : handler W) (body : string → ledger → prog ledger)
    (X : gset string) (M M' : ledger) (T : inventory) w w' t :
  (∀ x m w w' t m', run h (body x m) w = (w', t, Ok m') → m' = delete x m) →
  run h (for_each (elements (dom M ∩ dom T)) body M) w = (w', t, Ok M') →
  X ∖ dom M' ∖ dom T = X ∖ dom M ∖ dom T.
Proof.
  intros Hbody Hrun. apply minus_swept_ledger.
  eapply sweep_dom in Hrun; [|exact Hbody].
  by rewrite Hrun, list_to_set_elements_L.
Qed.

(** C1, as stated, fails for the upload stage of
    [src/cta_ingest/__main__.py]: the id [a] is in the stage's own ledger
    and is iterated over again, the ledger being written once more. *)
Lemma main_upload_revisits_recorded_id :
  let M : ledger := {["a" := ["parts/w/a/aa"]]} in
  let S : ledger := {["a" := ["/w/a/aa"]]} in
  let T : inventory := ∅ in
  "a" ∈ dom M ∧
  "a" ∈ Main.upload_unprocessed S T ∧
  Main.upload_unprocessed S T ≠ dom S ∖ dom M ∖ dom T ∧
  cmds_of (trace_of (run World.step Main.upload world_uploaded))
    = [GetLedger "upload.json" (Some ∅); GetLedger "disassemble.json" (Some ∅);
       GetInventory "target.json" (Some ∅); ListKeys "parts";
       PutLedger M "upload.json"].
Proof.
  intros M S T.
  assert (Hin : "a" ∈ Main.upload_unprocessed S T).
  { unfold Main.upload_unprocessed, S, T.
    rewrite dom_singleton_L, dom_empty_L. set_solver. }
  split; [|split; [done|split]].
  - unfold M. rewrite dom_singleton_L. set_solver.
  - intros Heq. rewrite Heq in Hin. unfold M in Hin.
    rewrite (dom_singleton_L (M:=gmap string) "a" ["parts/w/a/aa"]) in Hin. set_solver.
  - vm_compute. reflexivity.
Qed.

(** C1 (amended): once its three fetches have returned the ledger M, the
    source S and the target, and its clean-up sweep has completed, what
    a stage goes on to do is its loop over the new work, and nothing
    else.  In [src/cta-ingest.py] disassemble, upload and download run
    that loop over keys(S) − keys(M) − keys(Target), M being the ledger as
    fetched; in [src/cta_ingest/__main__.py] disassemble and download do
    the same, while upload runs it over keys(S) − keys(Target) and does
    not subtract its own ledger.  An id recorded in M is therefore not
    among the ids the five conforming stages iterate over. *)
Theorem new_work_is_source_minus_ledger_minus_target {W} (h : handler W)
    (work_dir : string) (part_size : Z) (M M' : ledger) (T : inventory)
    (w w1 w2 w3 w4 : W) (ts : list event) :
  (∀ O : inventory,
     h w (GetLedger "disassemble.json" (Some ∅)) = (Ok M, w1) →
     h w1 (GetInventory "origin.json" (Some ∅)) = (Ok O, w2) →
     h w2 (GetInventory "target.json" None) = (Ok T, w3) →
     run h (for_each (elements (dom M ∩ dom T))
              (CtaIngest.disassemble_cleanup work_dir "disassemble.json") M) w3
       = (w4, ts, Ok M') →
     run h (CtaIngest.disassemble work_dir part_size false) w
       = after ([got_ledger "disassemble.json" (Some ∅) M;
                 got_inventory "origin.json" (Some ∅) O;
                 got_inventory "target.json" None T] ++ ts)
           (run h (for_each (elements (dom O ∖ dom M ∖ dom T))
                     (CtaIngest.disassemble_one work_dir part_size O "disassemble.json")
                     M') w4)) ∧
  (∀ (S : ledger) (uploaded_parts : list string) w5,
     h w (GetLedger "upload.json" (Some ∅)) = (Ok M, w1) →
     h w1 (GetLedger "disassemble.json" (Some ∅)) = (Ok S, w2) →
     h w2 (GetInventory "target.json" None) = (Ok T, w3) →
     run h (for_each (elements (dom M ∩ dom T))
              (CtaIngest.upload_cleanup "upload.json") M) w3 = (w4, ts, Ok M') →
     h w4 (ListKeys "parts") = (Ok uploaded_parts, w5) →
     run h (CtaIngest.upload false) w
       = after ([got_ledger "upload.json" (Some ∅) M;
                 got_ledger "disassemble.json" (Some ∅) S;
                 got_inventory "target.json" None T] ++ ts
                ++ [Called (ListKeys "parts") (Returned (AStrs uploaded_parts))])
           (run h (for_each (elements (dom S ∖ dom M ∖ dom T))
                     (CtaIngest.upload_one S uploaded_parts "upload.json") M') w5)) ∧
  (∀ S : ledger,
     h w (GetLedger "download.json" (Some ∅)) = (Ok M, w1) →
     h w1 (GetLedger "upload.json" (Some ∅)) = (Ok S, w2) →
     h w2 (GetInventory "target.json" None) = (Ok T, w3) →
     run h (for_each (elements (dom M ∩ dom T))
              (CtaIngest.download_cleanup work_dir "download.json") M) w3
       = (w4, ts, Ok M') →
     run h (CtaIngest.download work_dir) w
       = after ([got_ledger "download.json" (Some ∅) M;
                 got_ledger "upload.json" (Some ∅) S;
                 got_inventory "target.json" None T] ++ ts)
           (run h (for_each (elements (dom S ∖ dom M ∖ dom T))
                     (CtaIngest.download_one work_dir S "download.json") M') w4)) ∧
  (∀ O : inventory,
     h w (GetLedger "disassemble.json" (Some ∅)) = (Ok M, w1) →
     h w1 (GetInventory "origin.json" (Some ∅)) = (Ok O, w2) →
     h w2 (GetInventory "target.json" (Some ∅)) = (Ok T, w3) →
     run h (for_each (elements (dom M ∩ dom T))
              (Main.disassemble_cleanup work_dir "disassemble.json") M) w3
       = (w4, ts, Ok M') →
     run h (Main.disassemble work_dir) w
       = after ([got_ledger "disassemble.json" (Some ∅) M;
                 got_inventory "origin.json" (Some ∅) O;
                 got_inventory "target.json" (Some ∅) T] ++ ts)
           (run h (for_each (elements (dom O ∖ dom M ∖ dom T))
                     (Main.disassemble_one work_dir O "disassemble.json") M') w4)) ∧
  (∀ S : ledger,
     h w (GetLedger "download.json" (Some ∅)) = (Ok M, w1) →
     h w1 (GetLedger "upload.json" (Some ∅)) = (Ok S, w2) →
     h w2 (GetInventory "target.json" (Some ∅)) = (Ok T, w3) →
     run h (for_each (elements (dom M ∩ dom T))
              (Main.download_cleanup work_dir "download.json") M) w3
       = (w4, ts, Ok M') →
     run h (Main.download work_dir) w
       = after ([got_ledger "download.json" (Some ∅) M;
                 got_ledger "upload.json" (Some ∅) S;
                 got_inventory "target.json" (Some ∅) T] ++ ts)
           (run h (for_each (elements (dom S ∖ dom M ∖ dom T))
                     (Main.download_one work_dir S "download.json") M') w4)) ∧
  (∀ (S : ledger) (uploaded_parts : list string) w5,
     h w (GetLedger "upload.json" (Some ∅)) = (Ok M, w1) →
     h w1 (GetLedger "disassemble.json" (Some ∅)) = (Ok S, w2) →
     h w2 (GetInventory "target.json" (Some ∅)) = (Ok T, w3) →
     run h (for_each (elements (dom M ∩ dom T))
              (Main.upload_cleanup "upload.json") M) w3 = (w4, ts, Ok M') →
     h w4 (ListKeys "parts") = (Ok uploaded_parts, w5) →
     run h Main.upload w
       = after ([got_ledger "upload.json" (Some ∅) M;
                 got_ledger "disassemble.json" (Some ∅) S;
                 got_inventory "target.json" (Some ∅) T] ++ ts
                ++ [Called (ListKeys "parts") (Returned (AStrs uploaded_parts))])
           (run h (for_each (elements (dom S ∖ dom T))
                     (Main.upload_one S uploaded_parts "upload.json") M') w5)) ∧
  (∀ (S : gset string) (fname : string),
     fname ∈ dom M → fname ∉ elements (S ∖ dom M ∖ dom T)).
Proof.
  repeat split.
  - intros O H1 H2 H3 Hsweep. unfold CtaIngest.disassemble.
    rewrite (run_call_then h _ _ _ _ _ H1), (run_call_then h _ _ _ _ _ H2),
      (run_call_then h _ _ _ _ _ H3).
    cbv beta iota zeta.
    unfold CtaIngest.my_unprocessed, CtaIngest.my_delivered.
    rewrite minus_delivered, (run_then h _ _ _ _ _ _ Hsweep), run_drop.
    by rewrite !prepend_prepend, prepend_after, app_nil_r.
  - intros S L w5 H1 H2 H3 Hsweep H4. unfold CtaIngest.upload.
    rewrite (run_call_then h _ _ _ _ _ H1), (run_call_then h _ _ _ _ _ H2),
      (run_call_then h _ _ _ _ _ H3).
    cbv beta iota zeta.
    unfold CtaIngest.my_unprocessed, CtaIngest.my_delivered.
    rewrite minus_delivered, (run_then h _ _ _ _ _ _ Hsweep),
      (run_call_then h _ _ _ _ _ H4), run_drop.
    by rewrite !prepend_prepend, prepend_after, app_nil_r, <- !app_assoc.
  - intros S H1 H2 H3 Hsweep. unfold CtaIngest.download.
    rewrite (run_call_then h _ _ _ _ _ H1), (run_call_then h _ _ _ _ _ H2),
      (run_call_then h _ _ _ _ _ H3).
    cbv beta iota zeta.
    unfold CtaIngest.download_unprocessed, CtaIngest.my_delivered.
    rewrite (run_then h _ _ _ _ _ _ Hsweep), run_drop.
    rewrite (new_work_after_sweep h _ _ _ _ _ _ _ _
               (λ x m w w' t m', cta_download_cleanup_pops h _ _ x m m' w w' t) Hsweep).
    by rewrite !prepend_prepend, prepend_after, app_nil_r.
  - intros O H1 H2 H3 Hsweep. unfold Main.disassemble.
    rewrite (run_call_then h _ _ _ _ _ H1), (run_call_then h _ _ _ _ _ H2),
      (run_call_then h _ _ _ _ _ H3).
    cbv beta iota zeta.
    unfold Main.disassemble_unprocessed, Main.my_delivered.
    rewrite (run_then h _ _ _ _ _ _ Hsweep), run_drop.
    rewrite (new_work_after_sweep h _ _ _ _ _ _ _ _
               (λ x m w w' t m', main_disassemble_cleanup_pops h _ _ x m m' w w' t) Hsweep).
    by rewrite !prepend_prepend, prepend_after, app_nil_r.
  - intros S H1 H2 H3 Hsweep. unfold Main.download.
    rewrite (run_call_then h _ _ _ _ _ H1), (run_call_then h _ _ _ _ _ H2),
      (run_call_then h _ _ _ _ _ H3).
    cbv beta iota zeta.
    unfold Main.download_unprocessed, Main.my_delivered.
    rewrite (run_then h _ _ _ _ _ _ Hsweep), run_drop.
    rewrite (new_work_after_sweep h _ _ _ _ _ _ _ _
               (λ x m w w' t m', main_download_cleanup_pops h _ _ x m m' w w' t) Hsweep).
    by rewrite !prepend_prepend, prepend_after, app_nil_r.
  - intros S L w5 H1 H2 H3 Hsweep H4. unfold Main.upload.
    rewrite (run_call_then h _ _ _ _ _ H1), (run_call_then h _ _ _ _ _ H2),
      (run_call_then h _ _ _ _ _ H3).
    cbv beta iota zeta.
    unfold Main.upload_unprocessed, Main.my_delivered.
    rewrite (run_then h _ _ _ _ _ _ Hsweep),
      (run_call_then h _ _ _ _ _ H4), run_drop.
    by rewrite !prepend_prepend, prepend_after, app_nil_r, <- !app_assoc.
  - intros S fname Hin Hel. apply elem_of_elements in Hel.
    apply elem_of_difference in Hel as [Hel _].
    apply elem_of_difference in Hel as [_ Hel]. done.
Qed.

Lemma new_work_is_source_minus_ledger_minus_target_witness :
  let M : ledger := {["a" := ["/d/a/aa"]]} in
  let S : ledger := <["a" := ["parts/w/a/aa"]]> {["b" := ["parts/w/b/aa"]]} in
  let T : inventory := {["a" := FileDesc "/dst/a" 100 1700000100 1700000000]} in
  ∃ w4 ts,
    run World.step (CtaIngest.download "/d") world_downloaded
      = after ([got_ledger "download.json" (Some ∅) M;
                got_ledger "upload.json" (Some ∅) S;
                got_inventory "target.json" None T] ++ ts)
          (run World.step
             (for_each (elements (dom S ∖ dom M ∖ dom T))
                (CtaIngest.download_one "/d" S "download.json") (delete "a" M)) w4).
Proof.
  intros M S T. do 2 eexists.
  eapply (proj1 (proj2 (proj2
            (new_work_is_source_minus_ledger_minus_target World.step "/d" 0
               M (delete "a" M) T world_downloaded world_downloaded world_downloaded
               world_downloaded _ _)))).
  - vm_compute. reflexivity.
  - vm_compute. reflexivity.
  - vm_compute. reflexivity.
  - vm_compute. reflexivity.
Defined.

(** ** Upload of a part that is already in the store *)

(** A part whose key is in the listing is not transferred, and the ledger
    is handed on as it was: the key is not appended.  The same holds in
    [src/cta_ingest/__main__.py], without the warning. *)
Lemma upload_part_listed {W} (h : handler W) w fname uploaded_parts part_path
    (my_state : ledger) :
  str_in ("parts" +:+ part_path) uploaded_parts = true →
  run h (CtaIngest.upload_part fname uploaded_parts part_path my_state) w
    = (w, [Logged (LogRecord WARN "Key {} already uploaded"
                     [LStr ("parts" +:+ part_path)])], Ok my_state) ∧
  run h (Main.upload_part fname uploaded_parts part_path my_state) w
    = (w, [], Ok my_state).
Proof.
  intros Hin. unfold CtaIngest.upload_part, Main.upload_part.
  rewrite Hin. done.
Qed.

(** C2 at an interrupted upload: [f] has parts [aa] and [ab], [aa] is
    already in the store and [upload.json] records nothing.  Both files
    transfer [ab] only, and both write a ledger entry for [f] that holds
    the key of [ab] and lacks the key of [aa]. *)
Theorem upload_never_records_listed_key :
  uploads_of (trace_of (run World.step (CtaIngest.upload false) world_interrupted))
    = [("/w/f/ab", "parts/w/f/ab")] ∧
  World.s3 (world_of (run World.step (CtaIngest.upload false) world_interrupted))
    !! "upload.json" = Some (World.BLedger {["f" := ["parts/w/f/ab"]]}) ∧
  uploads_of (trace_of (run World.step Main.upload world_interrupted))
    = [("/w/f/ab", "parts/w/f/ab")] ∧
  World.s3 (world_of (run World.step Main.upload world_interrupted))
    !! "upload.json" = Some (World.BLedger {["f" := ["parts/w/f/ab"]]}).
Proof. repeat split; vm_compute; reflexivity. Qed.

(** ** Dry run *)



(** ** Destination conflict in reassemble *)

(** C9, as stated, fails in [src/cta_ingest/__main__.py]: with [/dst/f]
    already in place the move is skipped, and nothing is reported. *)
Lemma main_reassemble_conflict_is_silent :
  cmds_of (trace_of (run World.step (Main.reassemble "/r" "/dst")
                       (world_reassemble ["/w/f/aa"; "/w/f/ab"] true)))
    = [Mkdir "/r" true true; Mkdir "/dst" true true;
       GetLedger "download.json" None; GetInventory "origin.json" None;
       Pipe ["cat"; "/w/f/aa"; "/w/f/ab"]
            ["zstd"; "--quiet"; "--force"; "--decompress"; "-o"; "/r/f"];
       Utime "/r/f" 1700000000 1700000100; Chmod "/r/f" 292;
       Exists "/dst/f"] ∧
  logs_of (trace_of (run World.step (Main.reassemble "/r" "/dst")
                       (world_reassemble ["/w/f/aa"; "/w/f/ab"] true))) = [] ∧
  result_of (run World.step (Main.reassemble "/r" "/dst")
               (world_reassemble ["/w/f/aa"; "/w/f/ab"] true)) = Ok tt.
Proof. repeat split; vm_compute; reflexivity. Qed.

(** Follow a program without loops through every answer of the
    environment. *)
Ltac run_cases h Hrun :=
  repeat (simpl in Hrun;
          first [ match type of Hrun with
                  | context [h ?w0 ?c] => destruct (h w0 c) as [[?|?] ?] eqn:?
                  end
                | match type of Hrun with
                  | context [decide ?P] => destruct (decide P)
                  end
                | match type of Hrun with
                  | context [@lookup _ _ _ _ ?k ?m] => destruct (m !! k) eqn:?
                  end
                | match type of Hrun with
                  | context [match ?b with true => _ | false => _ end] =>
                      is_var b; destruct b
                  end ]);
  simpl in Hrun.

(** An event that is none of those listed. *)
Ltac not_in_trace Hin :=
  repeat (apply elem_of_cons in Hin as [Hin|Hin]; [try discriminate Hin|]);
  try (by apply elem_of_nil in Hin).

(** The work directory being the destination directory, the output file
    is the destination file: with [/dst/f] already in place both files
    let [zstd --force] write over it and then set its times and its
    mode, before the existence test that skips the move. *)
Lemma reassemble_in_place_overwrites_destination :
  cmds_of (trace_of (run World.step (CtaIngest.reassemble "/dst" "/dst")
                       (world_reassemble ["/w/f/aa"; "/w/f/ab"] true)))
    = [Mkdir "/dst" true true; Mkdir "/dst" true true;
       GetLedger "download.json" None; GetInventory "origin.json" None;
       Pipe ["cat"; "/w/f/aa"; "/w/f/ab"]
            ["zstd"; "--quiet"; "--force"; "--decompress"; "-o"; "/dst/f"];
       Utime "/dst/f" 1700000000 1700000100; Chmod "/dst/f" 292;
       Exists "/dst/f"] ∧
  cmds_of (trace_of (run World.step (Main.reassemble "/dst" "/dst")
                       (world_reassemble ["/w/f/aa"; "/w/f/ab"] true)))
    = cmds_of (trace_of (run World.step (CtaIngest.reassemble "/dst" "/dst")
                           (world_reassemble ["/w/f/aa"; "/w/f/ab"] true))) ∧
  modifies (Pipe ["cat"; "/w/f/aa"; "/w/f/ab"]
                 ["zstd"; "--quiet"; "--force"; "--decompress"; "-o"; "/dst/f"])
    "/dst/f".
Proof. repeat split; vm_compute; reflexivity. Qed.

(** C9 (amended): provided the output file in the work directory is not
    the destination path itself, when the existence test on the
    destination path answers true reassemble issues no rename for that
    logical-id: the only commands issued for it are the cat|zstd pipeline
    writing the output file in the work directory, utime and chmod on
    that output file, and the existence test, none of which writes to,
    moves or removes the destination path; the iteration completes
    without error and the loop goes on with the next logical-id.
    [src/cta-ingest.py] logs the conflict as an error;
    [src/cta_ingest/__main__.py] logs nothing. *)
Theorem reassemble_conflict_skips_move {W} (h : handler W)
    (work_dir dst_dir : string) (origin_state : inventory)
    (origin_path : string) (part_paths : list string)
    (rest : list (string * list string)) :
  let output_path := path_join work_dir (path_name origin_path) in
  let target_path := path_join dst_dir (path_name output_path) in
  output_path ≠ target_path →
  (∀ w w' t r,
     run h (CtaIngest.reassemble_one work_dir dst_dir origin_state
              (origin_path, part_paths) tt) w = (w', t, r) →
     Called (Exists target_path) (Returned (ABool true)) ∈ t →
     r = Ok tt ∧
     (∃ d, origin_state !! origin_path = Some d ∧
           cmds_of t = [Pipe (CtaIngest.cat_cmd part_paths) (CtaIngest.zstd_cmd output_path);
                        Utime output_path (fd_atime d) (fd_mtime d);
                        Chmod output_path 292;
                        Exists target_path]) ∧
     Forall (λ c, ¬ modifies c target_path) (cmds_of t) ∧
     logs_of t = [LogRecord INFO "Processing {} from {} parts"
                    [LStr origin_path; LInt (Z.of_nat (length part_paths))];
                  LogRecord ERROR "{} exists" [LStr target_path]] ∧
     run h (for_each ((origin_path, part_paths) :: rest)
              (CtaIngest.reassemble_one work_dir dst_dir origin_state) tt) w
       = (let '(w2, t2, r2) :=
            run h (for_each rest
                     (CtaIngest.reassemble_one work_dir dst_dir origin_state) tt) w'
          in (w2, t ++ t2, r2))) ∧
  (∀ w w' t r,
     run h (Main.reassemble_one work_dir dst_dir origin_state
              (origin_path, part_paths) tt) w = (w', t, r) →
     Called (Exists target_path) (Returned (ABool true)) ∈ t →
     r = Ok tt ∧
     (∃ d, origin_state !! origin_path = Some d ∧
           cmds_of t = [Pipe (Main.cat_cmd part_paths) (Main.zstd_cmd output_path);
                        Utime output_path (fd_atime d) (fd_mtime d);
                        Chmod output_path 292;
                        Exists target_path]) ∧
     Forall (λ c, ¬ modifies c target_path) (cmds_of t) ∧
     logs_of t = [] ∧
     run h (for_each ((origin_path, part_paths) :: rest)
              (Main.reassemble_one work_dir dst_dir origin_state) tt) w
       = (let '(w2, t2, r2) :=
            run h (for_each rest
                     (Main.reassemble_one work_dir dst_dir origin_state) tt) w'
          in (w2, t ++ t2, r2))).
Proof.
  intros output_path target_path Hne.
  assert (∀ c : list string, ¬ modifies (Pipe c (CtaIngest.zstd_cmd output_path)) target_path)
    as Hpipe.
  { intros c. simpl. intros [= Heq]. by apply Hne. }
  split.
  - intros w w' t r Hrun Hin.
    rewrite run_for_each_cons, Hrun.
    unfold CtaIngest.reassemble_one, CtaIngest._run_pipeline, getitem in Hrun.
    run_cases h Hrun; injection Hrun as <- <- <-; not_in_trace Hin.
    split; [done|]. split; [by eexists|]. split; [|split; [done|]].
    + repeat constructor; try apply Hpipe; simpl; try done; by intros [].
    + by destruct (run h _ _) as [[??]?].
  - intros w w' t r Hrun Hin.
    rewrite run_for_each_cons, Hrun.
    unfold Main.reassemble_one, Main._run_pipeline, getitem in Hrun.
    run_cases h Hrun; injection Hrun as <- <- <-; not_in_trace Hin.
    split; [done|]. split; [by eexists|]. split; [|split; [done|]].
    + repeat constructor; try apply Hpipe; simpl; try done; by intros [].
    + by destruct (run h _ _) as [[??]?].
Qed.

Lemma reassemble_conflict_skips_move_witness :
  result_of (run World.step
               (CtaIngest.reassemble_one "/r" "/dst"
                  {["f" := FileDesc "/origin/f" 25000000 1700000100 1700000000]}
                  ("f", ["/w/f/aa"; "/w/f/ab"]) tt)
               (world_reassemble ["/w/f/aa"; "/w/f/ab"] true)) = Ok tt ∧
  Forall (λ c, ¬ modifies c "/dst/f")
    (cmds_of (trace_of
       (run World.step
          (CtaIngest.reassemble_one "/r" "/dst"
             {["f" := FileDesc "/origin/f" 25000000 1700000100 1700000000]}
             ("f", ["/w/f/aa"; "/w/f/ab"]) tt)
          (world_reassemble ["/w/f/aa"; "/w/f/ab"] true)))).
Proof.
  destruct (run World.step _ _) as [[w' t] r] eqn:E.
  assert (path_join "/r" (path_name "f") ≠ path_join "/dst" (path_name (path_join "/r" (path_name "f"))))
    as Hne by (vm_compute; discriminate).
  destruct (proj1 (reassemble_conflict_skips_move World.step "/r" "/dst"
                     _ "f" _ [] Hne) _ w' t r E) as (Hr & _ & Hmod & _).
  - vm_compute in E. injection E as <- <- <-.
    vm_compute. repeat constructor.
  - split; [exact Hr|exact Hmod].
Defined.

(** ** When the ledger is written *)

(** C5, as stated, fails: with two parts to transfer, upload and download
    transfer both parts and only then write the ledger, once. *)
Lemma ledger_written_once_per_file :
  shape (trace_of (run World.step (CtaIngest.upload false) world_disassembled))
    = [Transfer; Transfer; Persist] ∧
  shape (trace_of (run World.step (CtaIngest.download "/d") world_published))
    = [Transfer; Transfer; Persist] ∧
  persisted_after_each_part
    (shape (trace_of (run World.step (CtaIngest.upload false) world_disassembled)))
    = false ∧
  persisted_after_each_part
    (shape (trace_of (run World.step (CtaIngest.download "/d") world_published)))
    = false.
Proof. repeat split; vm_compute; reflexivity. Qed.

Section transfers.
Context {W : Type} (h : handler W).

Lemma steps_app t1 t2 : steps (t1 ++ t2) = steps t1 ++ steps t2.
Proof. apply omap_app. Qed.

Lemma run_getitem_Ok {V} (d : gmap string V) k w w' t v :
  run h (getitem d k) w = (w', t, Ok v) → d !! k = Some v ∧ w' = w ∧ t = [].
Proof. unfold getitem. destruct (d !! k); simpl; [|done]. by intros [= -> <- <-]. Qed.

Lemma run_dict_append_Ok k x (d d' : ledger) w w' t :
  run h (dict_append k x d) w = (w', t, Ok d') → t = [].
Proof. unfold dict_append. destruct (d !! k); simpl; [|done]. by intros [= _ <- _]. Qed.

(** [getitem] issues nothing. *)
Lemma run_getitem_inv {V} (d : gmap string V) k w w' t r :
  run h (getitem d k) w = (w', t, r) →
  t = [] ∧ w' = w ∧
  r = match d !! k with Some v => Ok v | None => Raise (KeyError k) end.
Proof. unfold getitem. destruct (d !! k); simpl; by intros [= <- <- <-]. Qed.

Lemma insert_setdefault k (l : list string) (m : ledger) :
  <[k := l]> (setdefault k m) = <[k := l]> m.
Proof. unfold setdefault. destruct (m !! k); [done|]. apply insert_insert_eq. Qed.

Lemma lookup_setdefault k (m : ledger) :
  setdefault k m !! k = Some (default [] (m !! k)).
Proof.
  unfold setdefault. destruct (m !! k) eqn:E; simpl; [done|].
  apply lookup_insert_eq.
Qed.

(** A write that returned shows among the steps. *)
Lemma wrote_in_steps s k o t :
  Called (PutLedger s k) o ∈ t → Wrote s k ∈ steps t.
Proof.
  intros Hin. unfold steps. apply list_elem_of_omap.
  by exists (Called (PutLedger s k) o).
Qed.

Lemma no_write_in_prefix_of_transfers {X} (f : X → step) (l : list X) t s k o :
  (∀ x, ∃ a b, f x = Transferred a b) →
  steps t `prefix_of` (f <$> l) →
  Called (PutLedger s k) o ∉ t.
Proof.
  intros Hf [rest Heq] Hin. apply wrote_in_steps in Hin.
  assert (Wrote s k ∈ f <$> l) as Hin'.
  { rewrite Heq. apply elem_of_app. by left. }
  apply list_elem_of_fmap in Hin' as (x & Hx & _).
  destruct (Hf x) as (a & b & Hab). congruence.
Qed.

(** The loop over the parts of a file.  [item p] is what part [p] is to
    show: nothing when it is skipped, otherwise its transfer and the
    name recorded for it. *)
Lemma parts_loop (id : string) (part : string → ledger → prog ledger)
    (item : string → option (step * string)) :
  (∀ p (m : ledger) l w w' t r,
     m !! id = Some l → run h (part p m) w = (w', t, r) →
     match item p with
     | None => steps t = [] ∧ r = Ok m
     | Some (st, x) =>
         (steps t = [st] ∧ r = Ok (<[id := l ++ [x]]> m)) ∨
         (steps t = [] ∧ ∃ e, r = Raise e)
     end) →
  ∀ parts (m : ledger) l w w' t r,
    m !! id = Some l →
    run h (for_each parts part m) w = (w', t, r) →
    steps t `prefix_of` (omap item parts).*1 ∧
    (∀ m', r = Ok m' →
           steps t = (omap item parts).*1 ∧
           m' = <[id := l ++ (omap item parts).*2]> m).
Proof.
  intros Hpart parts. induction parts as [|p parts IH]; intros m l w w' t r Hm Hrun.
  - simpl in Hrun. injection Hrun as <- <- <-. split; [done|].
    intros m' [= <-]. simpl. by rewrite app_nil_r, insert_id.
  - rewrite run_for_each_cons in Hrun.
    destruct (run h (part p m) w) as [[w1 t1] r1] eqn:E1.
    specialize (Hpart p m l w w1 t1 r1 Hm E1). simpl.
    destruct (item p) as [[st x]|].
    + destruct Hpart as [[Ht1 ->]|[Ht1 [e ->]]].
      * destruct (run h (for_each parts part _) w1) as [[w2 t2] r2] eqn:E2.
        injection Hrun as <- <- <-.
        apply (IH _ (l ++ [x])) in E2 as [Hpre Hok]; [|apply lookup_insert_eq].
        rewrite steps_app, Ht1. simpl. split.
        -- by apply prefix_cons.
        -- intros m' Hr. destruct (Hok m' Hr) as [-> ->].
           by rewrite insert_insert_eq, <- app_assoc.
      * injection Hrun as <- <- <-. rewrite Ht1. split; [apply prefix_nil|done].
    + destruct Hpart as [Ht1 ->].
      destruct (run h (for_each parts part m) w1) as [[w2 t2] r2] eqn:E2.
      injection Hrun as <- <- <-.
      apply (IH m l) in E2 as [Hpre Hok]; [|done].
      by rewrite steps_app, Ht1.
Qed.

(** The loop over the logical-ids. *)
Lemma files_loop (body : string → ledger → prog ledger)
    (file_steps : string → ledger → list step * ledger) :
  (∀ x (m : ledger) w w' t r,
     run h (body x m) w = (w', t, r) →
     steps t `prefix_of` (file_steps x m).1 ∧
     (∀ m', r = Ok m' → steps t = (file_steps x m).1 ∧ m' = (file_steps x m).2)) →
  ∀ ids (m : ledger) w w' t r,
    run h (for_each ids body m) w = (w', t, r) →
    steps t `prefix_of` loop_steps file_steps ids m ∧
    (∀ m', r = Ok m' → steps t = loop_steps file_steps ids m).
Proof.
  intros Hbody ids. induction ids as [|x ids IH]; intros m w w' t r Hrun.
  - simpl in Hrun. by injection Hrun as <- <- <-.
  - rewrite run_for_each_cons in Hrun.
    destruct (run h (body x m) w) as [[w1 t1] r1] eqn:E1.
    destruct (Hbody x m w w1 t1 r1 E1) as [Hpre Hok]. simpl.
    destruct r1 as [m1|e].
    + destruct (Hok m1 eq_refl) as [Ht1 ->].
      destruct (run h (for_each ids body _) w1) as [[w2 t2] r2] eqn:E2.
      injection Hrun as <- <- <-.
      apply IH in E2 as [Hpre2 Hok2]. rewrite steps_app, Ht1. split.
      * by apply prefix_app.
      * intros m' Hr. by rewrite (Hok2 m' Hr).
    + injection Hrun as <- <- <-. split; [|done].
      by apply prefix_app_r.
Qed.
End transfers.

Section per_file.
Context {W : Type} (h : handler W).

Lemma upload_items (uploaded_parts parts : list string) :
  (omap (upload_item uploaded_parts) parts).*1
    = (λ p, Transferred p (part_key p))
        <$> filter (λ p, str_in ("parts" +:+ p) uploaded_parts = false) parts ∧
  (omap (upload_item uploaded_parts) parts).*2
    = part_key <$> filter (λ p, str_in ("parts" +:+ p) uploaded_parts = false) parts.
Proof.
  induction parts as [|p parts [IH1 IH2]]; [done|].
  unfold upload_item, part_key in *. simpl. rewrite filter_cons.
  destruct (str_in ("parts" +:+ p) uploaded_parts) eqn:E.
  - rewrite decide_False by done. by split.
  - rewrite decide_True by done. simpl. split; f_equal; [apply IH1|apply IH2].
Qed.

Lemma download_items (chunks_dir : string) (part_keys : list string) :
  (omap (download_item chunks_dir) part_keys).*1
    = (λ k, Transferred k (path_join chunks_dir (path_name k))) <$> part_keys ∧
  (omap (download_item chunks_dir) part_keys).*2
    = (λ k, path_join chunks_dir (path_name k)) <$> part_keys.
Proof.
  induction part_keys as [|k ks [IH1 IH2]]; [done|]. simpl.
  split; f_equal; [apply IH1|apply IH2].
Qed.

(** Follow one part through every answer of the environment. *)
Lemma cta_upload_part_item fname up p (m : ledger) l w w' t r :
  m !! fname = Some l →
  run h (CtaIngest.upload_part fname up p m) w = (w', t, r) →
  match upload_item up p with
  | None => steps t = [] ∧ r = Ok m
  | Some (st, x) =>
      (steps t = [st] ∧ r = Ok (<[fname := l ++ [x]]> m)) ∨
      (steps t = [] ∧ ∃ e, r = Raise e)
  end.
Proof.
  intros Hm. unfold CtaIngest.upload_part, upload_item, part_key, dict_append.
  destruct (str_in _ up); simpl.
  - by intros [= <- <- <-].
  - destruct (h w _) as [[[]|e] w1]; simpl; rewrite ?Hm; simpl;
      intros [= <- <- <-]; [by left|right; eauto].
Qed.

Lemma main_upload_part_item fname up p (m : ledger) l w w' t r :
  m !! fname = Some l →
  run h (Main.upload_part fname up p m) w = (w', t, r) →
  match upload_item up p with
  | None => steps t = [] ∧ r = Ok m
  | Some (st, x) =>
      (steps t = [st] ∧ r = Ok (<[fname := l ++ [x]]> m)) ∨
      (steps t = [] ∧ ∃ e, r = Raise e)
  end.
Proof.
  intros Hm. unfold Main.upload_part, upload_item, part_key, dict_append.
  destruct (str_in _ up); simpl.
  - by intros [= <- <- <-].
  - destruct (h w _) as [[[]|e] w1]; simpl; rewrite ?Hm; simpl;
      intros [= <- <- <-]; [by left|right; eauto].
Qed.

Lemma cta_download_part_item id dir k (m : ledger) l w w' t r :
  m !! id = Some l →
  run h (CtaIngest.download_part id dir k m) w = (w', t, r) →
  match download_item dir k with
  | None => steps t = [] ∧ r = Ok m
  | Some (st, x) =>
      (steps t = [st] ∧ r = Ok (<[id := l ++ [x]]> m)) ∨
      (steps t = [] ∧ ∃ e, r = Raise e)
  end.
Proof.
  intros Hm. unfold CtaIngest.download_part, download_item, dict_append. simpl.
  destruct (h w _) as [[[]|e] w1]; simpl; rewrite ?Hm; simpl;
    intros [= <- <- <-]; [by left|right; eauto].
Qed.

Lemma main_download_part_item id dir k (m : ledger) l w w' t r :
  m !! id = Some l →
  run h (Main.download_part id dir k m) w = (w', t, r) →
  match download_item dir k with
  | None => steps t = [] ∧ r = Ok m
  | Some (st, x) =>
      (steps t = [st] ∧ r = Ok (<[id := l ++ [x]]> m)) ∨
      (steps t = [] ∧ ∃ e, r = Raise e)
  end.
Proof.
  intros Hm. unfold Main.download_part, download_item, dict_append. simpl.
  destruct (h w _) as [[[]|e] w1]; simpl; rewrite ?Hm; simpl;
    intros [= <- <- <-]; [by left|right; eauto].
Qed.

(** The end of a file: the write of the ledger, after a loop over the
    parts that has completed. *)
Lemma file_end (fs : list step * ledger) (transfers : list step) key
    (m : ledger) t1 w w' t r :
  fs = (transfers ++ [Wrote m key], m) →
  steps t1 = transfers →
  (∀ s k o, Called (PutLedger s k) o ∉ t1) →
  run h (call (PutLedger m key) ≫= λ _, Ret m) w = (w', t, r) →
  file_run_ok fs (t1 ++ t) r.
Proof.
  intros -> Ht1 Hno Hrun. unfold file_run_ok. simpl.
  apply run_bind_inv in Hrun as [(e & -> & Hc)|(w2 & t2 & [] & t3 & Hc & Hr & ->)].
  - apply run_call_inv in Hc as [(x & _ & ? & _)|(e' & _ & _ & ->)]; [done|].
    rewrite steps_app, Ht1. simpl. split; [done|]. split; [done|].
    intros _ _ s k a Hin. apply elem_of_app in Hin as [Hin|Hin].
    + by eapply Hno.
    + apply list_elem_of_singleton in Hin. discriminate Hin.
  - apply run_call_Ok in Hc as [_ ->]. simpl in Hr. injection Hr as <- <- <-.
    rewrite app_nil_r, steps_app, Ht1. simpl. split; [done|]. split; [|done].
    by intros m' [= <-].
Qed.

(** A file that stops among its parts. *)
Lemma file_stops {X} (f : X → step) (l : list X) (fs : list step * ledger)
    (wr : step) t e :
  (∀ x, ∃ a b, f x = Transferred a b) →
  fs.1 = (f <$> l) ++ [wr] →
  steps t `prefix_of` (f <$> l) →
  file_run_ok fs t (Raise e).
Proof.
  intros Hf Hfs Hpre. unfold file_run_ok. rewrite Hfs.
  split; [by apply prefix_app_r|]. split; [done|].
  intros _ _ s k a. by eapply no_write_in_prefix_of_transfers.
Qed.

Lemma cta_upload_one_run src_state up key fname (M : ledger) w w' t r :
  run h (CtaIngest.upload_one src_state up key fname M) w = (w', t, r) →
  file_run_ok (upload_file_steps src_state up key fname M) t r.
Proof.
  unfold CtaIngest.upload_one, upload_file_steps, parts_to_upload. intros Hrun.
  apply run_bind_inv in Hrun as [(e & -> & Hg)|(w1 & t1 & parts & t2 & Hg & Hrun & ->)].
  { apply run_getitem_inv in Hg as (-> & _). split; [apply prefix_nil|]. split; [done|].
    intros _ _ s k a Hin. by apply elem_of_nil in Hin. }
  apply run_getitem_Ok in Hg as (Hs & -> & ->). rewrite Hs. simpl.
  apply run_bind_inv in Hrun as [(e & -> & Hl)|(w2 & t2' & m2 & t3 & Hl & Hrun & ->)].
  - eapply (parts_loop h fname _ (upload_item up)) in Hl as [Hpre _];
      [|intros; by eapply cta_upload_part_item|apply lookup_setdefault].
    rewrite (proj1 (upload_items up parts)) in Hpre.
    eapply file_stops; [|reflexivity|exact Hpre]. intros x. by eexists _, _.
  - eapply (parts_loop h fname _ (upload_item up)) in Hl as [Hpre Hok];
      [|intros; by eapply cta_upload_part_item|apply lookup_setdefault].
    destruct (Hok m2 eq_refl) as [Ht2 ->].
    rewrite (proj1 (upload_items up parts)) in Hpre, Ht2.
    rewrite (proj2 (upload_items up parts)), insert_setdefault in Hrun.
    eapply file_end; [reflexivity|exact Ht2| |exact Hrun].
    intros s k o. eapply no_write_in_prefix_of_transfers; [|exact Hpre].
    intros x. by eexists _, _.
Qed.
Lemma main_upload_one_run src_state up key fname (M : ledger) w w' t r :
  run h (Main.upload_one src_state up key fname M) w = (w', t, r) →
  file_run_ok (upload_file_steps src_state up key fname M) t r.
Proof.
  unfold Main.upload_one, upload_file_steps, parts_to_upload. intros Hrun.
  apply run_bind_inv in Hrun as [(e & -> & Hg)|(w1 & t1 & parts & t2 & Hg & Hrun & ->)].
  { apply run_getitem_inv in Hg as (-> & _). split; [apply prefix_nil|]. split; [done|].
    intros _ _ s k a Hin. by apply elem_of_nil in Hin. }
  apply run_getitem_Ok in Hg as (Hs & -> & ->). rewrite Hs. simpl.
  apply run_bind_inv in Hrun as [(e & -> & Hl)|(w2 & t2' & m2 & t3 & Hl & Hrun & ->)].
  - eapply (parts_loop h fname _ (upload_item up)) in Hl as [Hpre _];
      [|intros; by eapply main_upload_part_item|apply lookup_setdefault].
    rewrite (proj1 (upload_items up parts)) in Hpre.
    eapply file_stops; [|reflexivity|exact Hpre]. intros x. by eexists _, _.
  - eapply (parts_loop h fname _ (upload_item up)) in Hl as [Hpre Hok];
      [|intros; by eapply main_upload_part_item|apply lookup_setdefault].
    destruct (Hok m2 eq_refl) as [Ht2 ->].
    rewrite (proj1 (upload_items up parts)) in Hpre, Ht2.
    rewrite (proj2 (upload_items up parts)), insert_setdefault in Hrun.
    eapply file_end; [reflexivity|exact Ht2| |exact Hrun].
    intros s k o. eapply no_write_in_prefix_of_transfers; [|exact Hpre].
    intros x. by eexists _, _.
Qed.

Lemma cta_download_one_run work_dir src_state key origin_path (M : ledger) w w' t r :
  run h (CtaIngest.download_one work_dir src_state key origin_path M) w = (w', t, r) →
  file_run_ok (download_file_steps work_dir src_state key origin_path M) t r.
Proof.
  unfold CtaIngest.download_one, download_file_steps, part_dst. intros Hrun.
  apply run_bind_inv in Hrun as [(e & -> & Hg)|(w1 & t1 & keys & t2 & Hg & Hrun & ->)].
  { apply run_getitem_inv in Hg as (-> & _). split; [apply prefix_nil|]. split; [done|].
    intros _ _ s k a Hin. by apply elem_of_nil in Hin. }
  apply run_getitem_Ok in Hg as (Hs & -> & ->). rewrite Hs. simpl.
  set (dir := path_join work_dir origin_path) in *.
  apply run_bind_inv in Hrun as [(e & -> & Hc)|(w2 & tm & [] & tr & Hc & Hrun & ->)].
  { apply run_call_inv in Hc as [(x & _ & ? & _)|(e' & _ & _ & ->)]; [done|].
    eapply (file_stops (λ k, Transferred k (path_join dir (path_name k))) keys);
      [|reflexivity|apply prefix_nil]. intros x. by eexists _, _. }
  apply run_call_Ok in Hc as [_ ->].
  apply run_bind_inv in Hrun as [(e & -> & Hl)|(w3 & t2' & m2 & t3 & Hl & Hrun & ->)].
  - eapply (parts_loop h origin_path _ (download_item dir)) in Hl as [Hpre _];
      [|intros; by eapply cta_download_part_item|apply lookup_setdefault].
    rewrite (proj1 (download_items dir keys)) in Hpre.
    eapply file_stops; [|reflexivity|exact Hpre]. intros x. by eexists _, _.
  - eapply (parts_loop h origin_path _ (download_item dir)) in Hl as [Hpre Hok];
      [|intros; by eapply cta_download_part_item|apply lookup_setdefault].
    destruct (Hok m2 eq_refl) as [Ht2 ->].
    rewrite (proj1 (download_items dir keys)) in Hpre, Ht2.
    rewrite (proj2 (download_items dir keys)), insert_setdefault in Hrun.
    rewrite app_assoc.
    eapply file_end; [reflexivity|exact Ht2| |exact Hrun].
    intros s k o. eapply no_write_in_prefix_of_transfers; [|exact Hpre].
    intros x. by eexists _, _.
Qed.

Lemma main_download_one_run work_dir src_state key origin_path (M : ledger) w w' t r :
  run h (Main.download_one work_dir src_state key origin_path M) w = (w', t, r) →
  file_run_ok (download_file_steps work_dir src_state key origin_path M) t r.
Proof.
  unfold Main.download_one, download_file_steps, part_dst. intros Hrun.
  apply run_bind_inv in Hrun as [(e & -> & Hg)|(w1 & t1 & keys & t2 & Hg & Hrun & ->)].
  { apply run_getitem_inv in Hg as (-> & _). split; [apply prefix_nil|]. split; [done|].
    intros _ _ s k a Hin. by apply elem_of_nil in Hin. }
  apply run_getitem_Ok in Hg as (Hs & -> & ->). rewrite Hs. simpl.
  set (dir := path_join work_dir origin_path) in *.
  apply run_bind_inv in Hrun as [(e & -> & Hc)|(w2 & tm & [] & tr & Hc & Hrun & ->)].
  { apply run_call_inv in Hc as [(x & _ & ? & _)|(e' & _ & _ & ->)]; [done|].
    eapply (file_stops (λ k, Transferred k (path_join dir (path_name k))) keys);
      [|reflexivity|apply prefix_nil]. intros x. by eexists _, _. }
  apply run_call_Ok in Hc as [_ ->].
  apply run_bind_inv in Hrun as [(e & -> & Hl)|(w3 & t2' & m2 & t3 & Hl & Hrun & ->)].
  - eapply (parts_loop h origin_path _ (download_item dir)) in Hl as [Hpre _];
      [|intros; by eapply main_download_part_item|apply lookup_setdefault].
    rewrite (proj1 (download_items dir keys)) in Hpre.
    eapply file_stops; [|reflexivity|exact Hpre]. intros x. by eexists _, _.
  - eapply (parts_loop h origin_path _ (download_item dir)) in Hl as [Hpre Hok];
      [|intros; by eapply main_download_part_item|apply lookup_setdefault].
    destruct (Hok m2 eq_refl) as [Ht2 ->].
    rewrite (proj1 (download_items dir keys)) in Hpre, Ht2.
    rewrite (proj2 (download_items dir keys)), insert_setdefault in Hrun.
    rewrite app_assoc.
    eapply file_end; [reflexivity|exact Ht2| |exact Hrun].
    intros s k o. eapply no_write_in_prefix_of_transfers; [|exact Hpre].
    intros x. by eexists _, _.
Qed.
End per_file.

(** C5 (amended): upload and download write the ledger once per
    logical-id, after all the part transfers of that id, and not between
    two parts of a file.  In any environment and however the loop over
    the new work ends, its transfers and ledger writes are the first of
    these: for each logical-id in turn, one transfer per part taken (for
    upload, the parts whose key is not in the listing), in source order,
    followed by a single write, under the stage's key, of the ledger
    with those parts added to the entry of that id; they are all of
    these when the loop completes.  And when the processing of a
    logical-id is cut short, by a transfer or by anything else that
    raises, no write of the ledger has returned during it, so that the
    parts of that file transferred so far are recorded nowhere. *)
Theorem ledger_written_after_all_parts_of_a_file {W} (h : handler W)
    (src_state : ledger) (key : string) (M : ledger)
    (w w' : W) (t : list event) :
  (∀ uploaded_parts ids r,
     run h (for_each ids (CtaIngest.upload_one src_state uploaded_parts key) M) w
       = (w', t, r) ∨
     run h (for_each ids (Main.upload_one src_state uploaded_parts key) M) w
       = (w', t, r) →
     steps t `prefix_of`
       loop_steps (upload_file_steps src_state uploaded_parts key) ids M ∧
     (∀ M', r = Ok M' →
        steps t = loop_steps (upload_file_steps src_state uploaded_parts key) ids M)) ∧
  (∀ work_dir ids r,
     run h (for_each ids (CtaIngest.download_one work_dir src_state key) M) w
       = (w', t, r) ∨
     run h (for_each ids (Main.download_one work_dir src_state key) M) w
       = (w', t, r) →
     steps t `prefix_of`
       loop_steps (download_file_steps work_dir src_state key) ids M ∧
     (∀ M', r = Ok M' →
        steps t = loop_steps (download_file_steps work_dir src_state key) ids M)) ∧
  (∀ uploaded_parts fname e,
     run h (CtaIngest.upload_one src_state uploaded_parts key fname M) w
       = (w', t, Raise e) ∨
     run h (Main.upload_one src_state uploaded_parts key fname M) w
       = (w', t, Raise e) →
     steps t `prefix_of` (upload_file_steps src_state uploaded_parts key fname M).1 ∧
     ∀ s k a, Called (PutLedger s k) (Returned a) ∉ t) ∧
  (∀ work_dir origin_path e,
     run h (CtaIngest.download_one work_dir src_state key origin_path M) w
       = (w', t, Raise e) ∨
     run h (Main.download_one work_dir src_state key origin_path M) w
       = (w', t, Raise e) →
     steps t `prefix_of`
       (download_file_steps work_dir src_state key origin_path M).1 ∧
     ∀ s k a, Called (PutLedger s k) (Returned a) ∉ t).
Proof.
  split; [|split; [|split]].
  - intros up ids r [Hrun|Hrun];
      (eapply (files_loop h); [|exact Hrun]); intros x m w1 w2 t1 r1 Hx;
      [apply cta_upload_one_run in Hx|apply main_upload_one_run in Hx];
      destruct Hx as (? & ? & _); by split.
  - intros wd ids r [Hrun|Hrun];
      (eapply (files_loop h); [|exact Hrun]); intros x m w1 w2 t1 r1 Hx;
      [apply cta_download_one_run in Hx|apply main_download_one_run in Hx];
      destruct Hx as (? & ? & _); by split.
  - intros up fname e [Hrun|Hrun];
      [apply cta_upload_one_run in Hrun|apply main_upload_one_run in Hrun];
      destruct Hrun as (Hpre & _ & Hno); (split; [done|]); by apply (Hno e).
  - intros wd id e [Hrun|Hrun];
      [apply cta_download_one_run in Hrun|apply main_download_one_run in Hrun];
      destruct Hrun as (Hpre & _ & Hno); (split; [done|]); by apply (Hno e).
Qed.

(** Upload of a file whose second part has gone missing: the first part
    is transferred, the second raises, and nothing is written. *)
Lemma ledger_written_after_all_parts_of_a_file_witness :
  let S : ledger := {["f" := ["/w/f/aa"; "/w/f/ab"]]} in
  steps (trace_of (run World.step (CtaIngest.upload_one S [] "upload.json" "f" ∅)
                     world_part_missing))
    `prefix_of` (upload_file_steps S [] "upload.json" "f" ∅).1 ∧
  steps (trace_of (run World.step (CtaIngest.upload_one S [] "upload.json" "f" ∅)
                     world_part_missing))
    = [Transferred "/w/f/aa" "parts/w/f/aa"] ∧
  ∀ s k a,
    Called (PutLedger s k) (Returned a)
      ∉ trace_of (run World.step (CtaIngest.upload_one S [] "upload.json" "f" ∅)
                    world_part_missing).
Proof.
  intros S.
  destruct (run World.step (CtaIngest.upload_one S [] "upload.json" "f" ∅)
              world_part_missing) as [[w' t] r] eqn:E.
  pose proof E as E'. vm_compute in E'. injection E' as <- <- <-.
  destruct (proj1 (proj2 (proj2
              (ledger_written_after_all_parts_of_a_file World.step S "upload.json" ∅
                 world_part_missing _ _)))
              [] "f" _ (or_introl E)) as [Hpre Hno].
  split; [exact Hpre|]. split; [vm_compute; reflexivity|exact Hno].
Defined.
